(** * loafer: request authentication and multi-tenant dispatch

  A shallow embedding of [loafer.go]: the workspace token registry, the
  signature check of inbound Slack requests, the install exchange and the
  two dispatchers (interactions and slash commands), followed by the
  properties of the specification that concern them.

  Go strings are byte strings; they are modelled by [string], whose
  characters are the 256 values of [ascii]. *)

From Stdlib Require Import ZArith List String Ascii Bool Lia DecimalString.
From stdpp Require Import gmap strings.
Import ListNotations.

Local Open Scope string_scope.
Local Open Scope Z_scope.

(** ** Bytes of a string *)

Definition byte_of_ascii (c : ascii) : Z := Z.of_N (N_of_ascii c).
Definition ascii_of_byte (b : Z) : ascii := ascii_of_N (Z.to_N (b mod 256)).

Fixpoint bytes_of_string (s : string) : list Z :=
  match s with
  | EmptyString => []
  | String c r => byte_of_ascii c :: bytes_of_string r
  end.

(** ** crypto/sha256 (FIPS 180-4), on 32-bit words held in [Z] *)

Module Sha256.

Definition w32 (x : Z) : Z := x mod 2 ^ 32.
Definition add32 (x y : Z) : Z := w32 (x + y).
Definition rotr (n x : Z) : Z :=
  Z.lor (Z.shiftr x n) (w32 (Z.shiftl x (32 - n))).
Definition not32 (x : Z) : Z := Z.lxor x 0xffffffff.

Definition Ch (x y z : Z) : Z := Z.lxor (Z.land x y) (Z.land (not32 x) z).
Definition Maj (x y z : Z) : Z :=
  Z.lxor (Z.lxor (Z.land x y) (Z.land x z)) (Z.land y z).
Definition Sigma0 (x : Z) : Z :=
  Z.lxor (Z.lxor (rotr 2 x) (rotr 13 x)) (rotr 22 x).
Definition Sigma1 (x : Z) : Z :=
  Z.lxor (Z.lxor (rotr 6 x) (rotr 11 x)) (rotr 25 x).
Definition sigma0 (x : Z) : Z :=
  Z.lxor (Z.lxor (rotr 7 x) (rotr 18 x)) (Z.shiftr x 3).
Definition sigma1 (x : Z) : Z :=
  Z.lxor (Z.lxor (rotr 17 x) (rotr 19 x)) (Z.shiftr x 10).

(** The primes below [bound], by trial division. *)
Definition is_prime (n : Z) : bool :=
  (2 <=? n)
  && forallb (fun d => negb (n mod Z.of_nat d =? 0))
       (seq 2 (Z.to_nat n - 2)).

Definition primes_below (bound : nat) : list Z :=
  filter is_prime (map Z.of_nat (seq 0 bound)).

(** The integer cube root, one bit at a time from bit [bits - 1] down. *)
Fixpoint cube_root_from (bits : nat) (n r : Z) : Z :=
  match bits with
  | O => r
  | S b =>
      let r' := r + 2 ^ Z.of_nat b in
      cube_root_from b n (if r' * r' * r' <=? n then r' else r)
  end.

Definition cube_root (n : Z) : Z := cube_root_from 40 n 0.

(** The round constants: the first 32 bits of the fractional parts of the
    cube roots of the first 64 primes. *)
Definition K : list Z :=
  Eval vm_compute in
    map (fun p => w32 (cube_root (p * 2 ^ 96))) (firstn 64 (primes_below 320)).

(** The initial hash value: the first 32 bits of the fractional parts of the
    square roots of the first 8 primes. *)
Definition H0 : list Z :=
  Eval vm_compute in
    map (fun p => w32 (Z.sqrt (p * 2 ^ 64))) (firstn 8 (primes_below 20)).

(** Big-endian encoding of [x] on [n] bytes. *)
Fixpoint be_bytes (n : nat) (x : Z) : list Z :=
  match n with
  | O => []
  | S m => Z.shiftr x (8 * Z.of_nat m) mod 256 :: be_bytes m x
  end.

Definition BlockSize : nat := 64.

(** The message, the byte 0x80, zeros up to 56 modulo 64, then the bit
    length on eight bytes. *)
Definition pad (msg : list Z) : list Z :=
  let len := List.length msg in
  let zeros := ((BlockSize + 55 - len mod BlockSize) mod BlockSize)%nat in
  (msg ++ 0x80 :: repeat 0 zeros ++ be_bytes 8 (8 * Z.of_nat len))%list.

Fixpoint words_of_bytes (l : list Z) : list Z :=
  match l with
  | a :: b :: c :: d :: r =>
      (((a * 256 + b) * 256 + c) * 256 + d) :: words_of_bytes r
  | _ => []
  end.

(** Extends the schedule, kept newest word first, by [n] words. *)
Fixpoint schedule (n : nat) (rev_w : list Z) : list Z :=
  match n with
  | O => rev_w
  | S m =>
      let w :=
        add32 (add32 (sigma1 (nth 1 rev_w 0)) (nth 6 rev_w 0))
              (add32 (sigma0 (nth 14 rev_w 0)) (nth 15 rev_w 0)) in
      schedule m (w :: rev_w)
  end.

Record regs : Type :=
  Regs { ra : Z; rb : Z; rc : Z; rd : Z; re : Z; rf : Z; rg : Z; rh : Z }.

Definition round (s : regs) (kw : Z * Z) : regs :=
  let t1 :=
    add32 (add32 (add32 (rh s) (Sigma1 (re s))) (Ch (re s) (rf s) (rg s)))
          (add32 (fst kw) (snd kw)) in
  let t2 := add32 (Sigma0 (ra s)) (Maj (ra s) (rb s) (rc s)) in
  Regs (add32 t1 t2) (ra s) (rb s) (rc s) (add32 (rd s) t1)
       (re s) (rf s) (rg s).

Definition regs_of_list (h : list Z) : regs :=
  Regs (nth 0 h 0) (nth 1 h 0) (nth 2 h 0) (nth 3 h 0)
       (nth 4 h 0) (nth 5 h 0) (nth 6 h 0) (nth 7 h 0).

Definition list_of_regs (s : regs) : list Z :=
  [ra s; rb s; rc s; rd s; re s; rf s; rg s; rh s].

Definition block (h : list Z) (blk : list Z) : list Z :=
  let w := rev (schedule 48 (rev (words_of_bytes blk))) in
  let s := fold_left round (combine K w) (regs_of_list h) in
  map (fun p => add32 (fst p) (snd p)) (combine h (list_of_regs s)).

Fixpoint blocks (n : nat) (h : list Z) (data : list Z) : list Z :=
  match n with
  | O => h
  | S m => blocks m (block h (firstn BlockSize data)) (skipn BlockSize data)
  end.

Definition Sum256 (msg : list Z) : list Z :=
  let p := pad msg in
  let h := blocks (List.length p / BlockSize)%nat H0 p in
  flat_map (be_bytes 4) h.

End Sha256.

(** ** crypto/hmac over SHA-256 (RFC 2104) *)

Module Hmac.

Definition prepare_key (key : list Z) : list Z :=
  let k := if (Sha256.BlockSize <? List.length key)%nat
           then Sha256.Sum256 key else key in
  (k ++ repeat 0 (Sha256.BlockSize - List.length k)%nat)%list.

Definition Sum (key msg : list Z) : list Z :=
  let k := prepare_key key in
  let ipad := map (Z.lxor 0x36) k in
  let opad := map (Z.lxor 0x5c) k in
  Sha256.Sum256 (opad ++ Sha256.Sum256 (ipad ++ msg))%list.

End Hmac.

(** ** encoding/hex *)

Module Hex.

Definition hextable : string := "0123456789abcdef".

Definition digit (n : Z) : ascii :=
  match String.get (Z.to_nat n) hextable with
  | Some c => c
  | None => "0"%char
  end.

Fixpoint EncodeToString (src : list Z) : string :=
  match src with
  | [] => EmptyString
  | b :: r =>
      String (digit (Z.shiftr b 4))
        (String (digit (Z.land b 0x0f)) (EncodeToString r))
  end.

End Hex.

(** ** Errors *)

Inductive error : Type :=
| EscapeError (s : string)     (* net/url: invalid URL escape *)
| SemicolonError               (* net/url: invalid semicolon separator *)
| OtherError (msg : string).   (* input/output, transport and JSON errors *)

Inductive result (A : Type) : Type :=
| Done (a : A)
| Fail (e : error).
Arguments Done {A} a.
Arguments Fail {A} e.

(** ** Package strings *)

Module strings.

(** [Join elems sep]. *)
Fixpoint Join (elems : list string) (sep : string) : string :=
  match elems with
  | [] => ""
  | [e] => e
  | e :: r => e ++ sep ++ Join r sep
  end.

Fixpoint Contains_byte (s : string) (c : ascii) : bool :=
  match s with
  | EmptyString => false
  | String d r => if Ascii.eqb d c then true else Contains_byte r c
  end.

(** [Cut s sep] for a one-byte separator: the text before the first
    [sep], the text after it, and whether [sep] was found. *)
Fixpoint Cut (s : string) (sep : ascii) : string * string * bool :=
  match s with
  | EmptyString => ("", "", false)
  | String c r =>
      if Ascii.eqb c sep then ("", r, true)
      else let '(b, a, f) := Cut r sep in (String c b, a, f)
  end.

(** [replace_from skip old new s] copies [s] while replacing each
    occurrence of [old]; the first [skip] bytes belong to an occurrence
    already replaced and are dropped. *)
Fixpoint replace_from (skip : nat) (old new s : string) : string :=
  match s with
  | EmptyString => ""
  | String c r =>
      match skip with
      | S k => replace_from k old new r
      | O =>
          if String.prefix old s
          then new ++ replace_from (String.length old - 1) old new r
          else String c (replace_from O old new r)
      end
  end.

(** [Replace s old new (-1)]: every non-overlapping occurrence, from the
    left. The one call site passes a non-empty [old]; for an empty [old]
    Go inserts [new] around every UTF-8 sequence, which is not modelled
    and [s] is returned. *)
Definition ReplaceAll (s old new : string) : string :=
  if String.eqb old new then s
  else if String.eqb old "" then s
  else replace_from O old new s.

End strings.

(** ** Package net/url *)

Module url.

Definition ishex (c : ascii) : bool :=
  let n := byte_of_ascii c in
  ((48 <=? n) && (n <=? 57)) || ((97 <=? n) && (n <=? 102))
  || ((65 <=? n) && (n <=? 70)).

Definition unhex (c : ascii) : Z :=
  let n := byte_of_ascii c in
  if (48 <=? n) && (n <=? 57) then n - 48
  else if (97 <=? n) && (n <=? 102) then n - 97 + 10
  else if (65 <=? n) && (n <=? 70) then n - 65 + 10
  else 0.

(** [QueryUnescape]: [%XX] becomes the byte XX, [+] becomes a space. An
    incomplete or non-hexadecimal escape is an [EscapeError] that carries
    at most three bytes starting at the [%]. *)
Fixpoint QueryUnescape (s : string) : result string :=
  match s with
  | EmptyString => Done ""
  | String "%" (String h (String l r)) =>
      if ishex h && ishex l then
        match QueryUnescape r with
        | Done t => Done (String (ascii_of_byte (Z.lor (Z.shiftl (unhex h) 4) (unhex l))) t)
        | Fail e => Fail e
        end
      else Fail (EscapeError (String.substring 0 3 s))
  | String "%" _ => Fail (EscapeError (String.substring 0 3 s))
  | String "+" r =>
      match QueryUnescape r with
      | Done t => Done (String " " t)
      | Fail e => Fail e
      end
  | String c r =>
      match QueryUnescape r with
      | Done t => Done (String c t)
      | Fail e => Fail e
      end
  end.

(** [shouldEscape c encodeQueryComponent]: letters, digits and [-_.~]
    stay as they are. *)
Definition shouldEscape (c : ascii) : bool :=
  let n := byte_of_ascii c in
  negb (((97 <=? n) && (n <=? 122)) || ((65 <=? n) && (n <=? 90))
        || ((48 <=? n) && (n <=? 57))
        || (n =? 45) || (n =? 95) || (n =? 46) || (n =? 126)).

Definition upperhex : string := "0123456789ABCDEF".

Definition upper_digit (n : Z) : ascii :=
  match String.get (Z.to_nat n) upperhex with
  | Some c => c
  | None => "0"%char
  end.

Fixpoint QueryEscape (s : string) : string :=
  match s with
  | EmptyString => ""
  | String c r =>
      if Ascii.eqb c " " then String "+" (QueryEscape r)
      else if shouldEscape c then
        String "%"
          (String (upper_digit (Z.shiftr (byte_of_ascii c) 4))
             (String (upper_digit (Z.land (byte_of_ascii c) 15))
                (QueryEscape r)))
      else String c (QueryEscape r)
  end.

(** [url.Values] is [map[string][]string]. *)
Definition Values : Type := gmap string (list string).

Definition Get (v : Values) (key : string) : string :=
  match v !! key with
  | Some (x :: _) => x
  | _ => ""
  end.

Definition Set_ (v : Values) (key value : string) : Values :=
  <[key := [value]]> v.

(** The segments of a query between [&]; the loop of [parseQuery] cuts
    them off one at a time and stops on an empty remainder. *)
Fixpoint segments (query : string) : list string :=
  match query with
  | EmptyString => []
  | String c r =>
      if Ascii.eqb c "&" then "" :: segments r
      else match segments r with
           | [] => [String c ""]
           | seg :: segs => String c seg :: segs
           end
  end.

(** One turn of the loop of [parseQuery] (Go 1.17 and later, where a
    semicolon in a segment is an error). A semicolon error replaces the
    error kept so far; an escape error is kept only when it is the first. *)
Definition parse_segment (st : Values * option error) (seg : string)
  : Values * option error :=
  let '(m, err) := st in
  if strings.Contains_byte seg ";" then (m, Some SemicolonError)
  else if String.eqb seg "" then (m, err)
  else
    let '(key, value, _) := strings.Cut seg "=" in
    match QueryUnescape key with
    | Fail e1 => (m, match err with None => Some e1 | Some _ => err end)
    | Done key =>
        match QueryUnescape value with
        | Fail e1 => (m, match err with None => Some e1 | Some _ => err end)
        | Done value =>
            (<[key := (default [] (m !! key) ++ [value])%list]> m, err)
        end
    end.

Definition ParseQuery (query : string) : Values * option error :=
  fold_left parse_segment (segments query) (∅, None).

Fixpoint insert_sorted (k : string) (l : list string) : list string :=
  match l with
  | [] => [k]
  | x :: r => if String.leb k x then k :: l else x :: insert_sorted k r
  end.

Definition sorted_keys (v : Values) : list string :=
  fold_right insert_sorted [] (map fst (map_to_list v)).

(** [Values.Encode]: [key=value] pairs joined by [&], keys in byte
    order. *)
Definition Encode (v : Values) : string :=
  strings.Join
    (flat_map
       (fun k => map (fun x => QueryEscape k ++ "=" ++ QueryEscape x)
                     (default [] (v !! k)))
       (sorted_keys v))
    "&".

End url.

(** ** Data model of [loafer.go] *)

(** [SlackAuthToken] *)
Record SlackAuthToken : Type :=
  { Workspace : string;
    Token : string }.

(** [SlackAppOptions] *)
Record SlackAppOptions : Type :=
  { Name : string;
    Prefix : string;
    Tokens : list SlackAuthToken;
    ClientSecret : string;
    ClientID : string;
    SigningSecret : string }.

(** [SlackOauth2Team], [SlackOauth2User] and [SlackOauth2Response]. Each
    struct has a module of its own, as several of them share field
    names. *)
Module SlackOauth2Team.
Record t : Type := { Name : string; ID : string }.
End SlackOauth2Team.

Module SlackOauth2User.
Record t : Type :=
  { ID : string; Scope : string; AccessToken : string; TokenType : string }.
End SlackOauth2User.

Module SlackOauth2Response.
Record t : Type :=
  { Ok : bool;
    AccessToken : string;
    TokenType : string;
    Scope : string;
    BotUserID : string;
    AppID : string;
    Team : SlackOauth2Team.t;
    Enterprise : SlackOauth2Team.t;
    AuthedUser : SlackOauth2User.t }.
End SlackOauth2Response.

(** The interaction event, with the fields the dispatcher reads. A Go
    pointer field is an [option] ([None] is [nil]); a slice is a list. *)
Module SlackInteractionTeam.
Record t : Type := { ID : string; Domain : string }.
End SlackInteractionTeam.

Module SlackInteractionAction.
Record t : Type :=
  { ActionID : string;
    BlockID : string;
    Value : string;
    Type_ : string;
    ActionTS : string }.
End SlackInteractionAction.

Module SlackInteractionView.
Record t : Type :=
  { ID : string;
    TeamID : string;
    Type_ : string;
    PrivateMetadata : string;
    CallbackID : string }.
End SlackInteractionView.

Module SlackInteractionEvent.
Record t : Type :=
  { Type_ : string;
    APIAppID : string;
    TriggerID : string;
    Team : option SlackInteractionTeam.t;
    ResponseURL : string;
    Actions : list SlackInteractionAction.t;
    View : option SlackInteractionView.t;
    CallbackID : string;
    ActionTS : string }.
End SlackInteractionEvent.

(** What the handlers use of [*http.Request]: the value [Header.Get]
    returns for a name, the outcome of reading the body to its end (the
    bytes read and the error, if any) and the raw query of the URL. *)
Record Request : Type :=
  { HeaderGet : string -> string;
    Body : string * option error;
    RawQuery : string }.

Definition ReadAll (body : string * option error) : string * option error :=
  body.

(** [req.URL.Query()] parses the raw query and drops the error. *)
Definition Query (req : Request) : url.Values := fst (url.ParseQuery (RawQuery req)).

(** [SlackContext]. Its [Res] is the response of the request being served,
    which the effects below write to. *)
Record SlackContext : Type :=
  { ctxBody : string;
    ctxToken : string;
    ctxReq : option Request }.

(** What lies outside [loafer.go]: the page constant [INSTALLSUCCESSPAGE]
    (declared in a file that is not part of the sources at hand), the JSON
    decoders of encoding/json at the two types they are used at, and the
    answer of the platform to the POST of the install exchange. *)
Record World : Type :=
  { INSTALLSUCCESSPAGE : string;
    json_Unmarshal : string -> result SlackInteractionEvent.t;
    json_Decode : string -> result SlackOauth2Response.t;
    http_Post : string -> string -> string -> result string }.

Definition StatusOK : Z := 200.
Definition StatusBadRequest : Z := 400.
Definition StatusUnauthorized : Z := 401.
Definition StatusInternalServerError : Z := 500.

Definition newline : string := String "010"%char "".

(** ** The registry of workspace tokens *)

(** [findTokenForWorkspace]: the first token of the workspace, [None] for
    the nil pointer. *)
Fixpoint findTokenForWorkspace (tokens : list SlackAuthToken)
  (workspace : string) : option SlackAuthToken :=
  match tokens with
  | [] => None
  | t :: rest =>
      if String.eqb (Workspace t) workspace then Some t
      else findTokenForWorkspace rest workspace
  end.

Section App.

(** Application handlers are opaque closures [func(ctx *SlackContext)]. *)
Context {Handler : Type}.

(** [SlackApp], without its [*http.Server]. A map that is nil reads as the
    empty map. The install callback is given by the flag it returns. *)
Record SlackApp : Type :=
  { opts : SlackAppOptions;
    distCB : option (SlackOauth2Response.t -> Request -> bool);
    cmds : gmap string Handler;
    shortcutListeners : gmap string Handler;
    actionListeners : gmap string Handler;
    submitListeners : gmap string Handler;
    closeListeners : gmap string Handler }.

Definition with_tokens (a : SlackApp) (tokens : list SlackAuthToken) : SlackApp :=
  {| opts := {| Name := Name (opts a);
                Prefix := Prefix (opts a);
                Tokens := tokens;
                ClientSecret := ClientSecret (opts a);
                ClientID := ClientID (opts a);
                SigningSecret := SigningSecret (opts a) |};
     distCB := distCB a;
     cmds := cmds a;
     shortcutListeners := shortcutListeners a;
     actionListeners := actionListeners a;
     submitListeners := submitListeners a;
     closeListeners := closeListeners a |}.


Definition AddToken (a : SlackApp) (token : SlackAuthToken) : SlackApp :=
  with_tokens a (Tokens (opts a) ++ [token])%list.

Definition OnCommand (a : SlackApp) (cmd : string) (handler : Handler) : SlackApp :=
  {| opts := opts a; distCB := distCB a;
     cmds := <[cmd := handler]> (cmds a);
     shortcutListeners := shortcutListeners a;
     actionListeners := actionListeners a;
     submitListeners := submitListeners a;
     closeListeners := closeListeners a |}.

Definition RemoveCommand (a : SlackApp) (cmd : string) : SlackApp :=
  {| opts := opts a; distCB := distCB a;
     cmds := delete cmd (cmds a);
     shortcutListeners := shortcutListeners a;
     actionListeners := actionListeners a;
     submitListeners := submitListeners a;
     closeListeners := closeListeners a |}.

Definition OnAction (a : SlackApp) (actionID : string) (handler : Handler) : SlackApp :=
  {| opts := opts a; distCB := distCB a; cmds := cmds a;
     shortcutListeners := shortcutListeners a;
     actionListeners := <[actionID := handler]> (actionListeners a);
     submitListeners := submitListeners a;
     closeListeners := closeListeners a |}.

Definition OnShortcut (a : SlackApp) (callbackID : string) (handler : Handler) : SlackApp :=
  {| opts := opts a; distCB := distCB a; cmds := cmds a;
     shortcutListeners := <[callbackID := handler]> (shortcutListeners a);
     actionListeners := actionListeners a;
     submitListeners := submitListeners a;
     closeListeners := closeListeners a |}.

Definition OnViewSubmission (a : SlackApp) (callbackID : string) (handler : Handler) : SlackApp :=
  {| opts := opts a; distCB := distCB a; cmds := cmds a;
     shortcutListeners := shortcutListeners a;
     actionListeners := actionListeners a;
     submitListeners := <[callbackID := handler]> (submitListeners a);
     closeListeners := closeListeners a |}.

Definition OnViewClose (a : SlackApp) (callbackID : string) (handler : Handler) : SlackApp :=
  {| opts := opts a; distCB := distCB a; cmds := cmds a;
     shortcutListeners := shortcutListeners a;
     actionListeners := actionListeners a;
     submitListeners := submitListeners a;
     closeListeners := <[callbackID := handler]> (closeListeners a) |}.

Definition OnAppInstall (a : SlackApp)
  (cb : option (SlackOauth2Response.t -> Request -> bool)) : SlackApp :=
  {| opts := opts a; distCB := cb; cmds := cmds a;
     shortcutListeners := shortcutListeners a;
     actionListeners := actionListeners a;
     submitListeners := submitListeners a;
     closeListeners := closeListeners a |}.

Definition InitializeSlackApp (o : SlackAppOptions) : SlackApp :=
  {| opts := {| Name := Name o;
                Prefix := Prefix o;
                Tokens := Tokens o;
                ClientSecret := ClientSecret o;
                ClientID := ClientID o;
                SigningSecret := SigningSecret o |};
     distCB := None;
     cmds := ∅;
     shortcutListeners := ∅;
     actionListeners := ∅;
     submitListeners := ∅;
     closeListeners := ∅ |}.

(** ** The signature check *)

Definition checkSlackSecret (a : SlackApp) (signing ts body : string) : bool :=
  let data := strings.Join ["v0"; ts; body] ":" in
  let signed := bytes_of_string (SigningSecret (opts a)) in
  let tested := Hmac.Sum signed (bytes_of_string data) in
  let own := strings.Join ["v0"; Hex.EncodeToString tested] "=" in
  if String.eqb own signing then true else false.

(** ** Effects of a request

    What serving a request does besides changing the application: lines
    printed, writes to the response, the outbound POST and the calls of
    application code, in the order they happen. *)
Inductive effect : Type :=
| Printf (text : string)
| HeaderSet (k v : string)
| WriteHeader (code : Z)
| Write (message : string)
| HttpPost (target contentType body : string)
| CallDistCB (installRes : SlackOauth2Response.t) (req : Request)
| CallHandler (handler : Handler) (ctx : SlackContext).

(** A run ends with a value, or with [None] when it panicked; it leaves an
    application state and the effects so far. *)
Record run (A : Type) : Type :=
  { value : option A;
    final : SlackApp;
    trace : list effect }.
Arguments value {A} r.
Arguments final {A} r.
Arguments trace {A} r.

Definition M (A : Type) : Type := SlackApp -> run A.

Definition ret {A : Type} (x : A) : M A :=
  fun a => {| value := Some x; final := a; trace := [] |}.

Definition bind {A B : Type} (m : M A) (k : A -> M B) : M B :=
  fun a =>
    let r := m a in
    match value r with
    | None => {| value := None; final := final r; trace := trace r |}
    | Some x =>
        let r' := k x (final r) in
        {| value := value r'; final := final r';
           trace := (trace r ++ trace r')%list |}
    end.

Definition emit (e : effect) : M unit :=
  fun a => {| value := Some tt; final := a; trace := [e] |}.

Definition panic {A : Type} : M A :=
  fun a => {| value := None; final := a; trace := [] |}.

Definition receiver : M SlackApp :=
  fun a => {| value := Some a; final := a; trace := [] |}.

Definition update (f : SlackApp -> SlackApp) : M unit :=
  fun a => {| value := Some tt; final := f a; trace := [] |}.

(** Reading through a pointer: a nil pointer panics. *)
Definition deref {A : Type} (p : option A) : M A :=
  match p with
  | Some x => ret x
  | None => panic
  end.

(** [s[i]] on a slice: an index out of range panics. *)
Definition at_index {A : Type} (s : list A) (i : nat) : M A :=
  match nth_error s i with
  | Some x => ret x
  | None => panic
  end.

(** [p == nil] *)
Definition is_nil {A : Type} (p : option A) : bool :=
  match p with
  | None => true
  | Some _ => false
  end.

End App.

Arguments SlackApp Handler : clear implicits.
Arguments effect Handler : clear implicits.
Arguments run Handler A : clear implicits.
Arguments M Handler A : clear implicits.
Arguments value {Handler A} r.
Arguments final {Handler A} r.
Arguments trace {Handler A} r.

Declare Scope go_scope.
Delimit Scope go_scope with go.
Notation "x <- m ;; k" := (bind m (fun x => k))
  (at level 100, m at next level, right associativity) : go_scope.
Notation "m ;; k" := (bind m (fun _ => k))
  (at level 100, right associativity) : go_scope.

(** ** The request handlers *)

Section Handlers.

Context {Handler : Type}.
Variable w : World.

Local Open Scope go_scope.

(** [&SlackContext{Res: res}]: every other field has its zero value. *)
Definition ctxRes : SlackContext :=
  {| ctxBody := ""; ctxToken := ""; ctxReq := None |}.

(** [Response]: the headers, in the order the map yields them, then the
    status line, then the body. *)
Definition Response (ctx : SlackContext) (code : Z) (message : string)
  (headers : gmap string string) : M Handler unit :=
  foldr (fun kv rest => emit (HeaderSet (fst kv) (snd kv)) ;; rest)
        (ret tt) (map_to_list headers) ;;
  emit (WriteHeader code) ;;
  emit (Write message).

(** The form [appInstall] posts (lines 144 to 147). *)
Definition installForm (a : SlackApp Handler) (req : Request) : url.Values :=
  let form := url.Set_ ∅ "code" (url.Get (Query req) "code") in
  let form := url.Set_ form "client_id" (ClientID (opts a)) in
  url.Set_ form "client_secret" (ClientSecret (opts a)).

Definition accessURL : string := "https://slack.com/api/oauth.v2.access".
Definition formContentType : string := "application/x-www-form-urlencoded".

(** [appInstall] (lines 142 to 176). *)
Definition appInstall (req : Request) : M Handler unit :=
  a <- receiver ;;
  let form := installForm a req in
  emit (HttpPost accessURL formContentType (url.Encode form)) ;;
  match http_Post w accessURL formContentType (url.Encode form) with
  | Fail _ =>
      Response ctxRes StatusInternalServerError
        "Unable to authorize Slack App for workspace" ∅
  | Done respBody =>
      match json_Decode w respBody with
      | Fail _ =>
          Response ctxRes StatusInternalServerError
            "Unable to get Slack OAuth2 Access Response for workspace" ∅
      | Done installResponse =>
          if SlackOauth2Response.Ok installResponse then
            avoidDefaultPage <-
              match distCB a with
              | Some cb =>
                  update (fun a =>
                    AddToken a
                      {| Workspace :=
                           SlackOauth2Team.ID
                             (SlackOauth2Response.Team installResponse);
                         Token :=
                           SlackOauth2Response.AccessToken installResponse |}) ;;
                  emit (CallDistCB installResponse req) ;;
                  ret (cb installResponse req)
              | None => ret false
              end ;;
            if negb avoidDefaultPage then
              Response ctxRes StatusOK
                (strings.ReplaceAll (INSTALLSUCCESSPAGE w) "{{APP_NAME}}"
                   (Name (opts a)))
                {[ "Content-Type" := "text/html; charset=utf-8" ]}
            else ret tt
          else
            Response ctxRes StatusInternalServerError
              "Slack App Access Request is not Ok" ∅
      end
  end.

(** The [switch] of [interactions] on the type of the event (lines 223 to
    261). *)
Definition dispatchEvent (a : SlackApp Handler) (ctx : SlackContext)
  (event : SlackInteractionEvent.t) : M Handler unit :=
  let Type_ := SlackInteractionEvent.Type_ event in
  if String.eqb Type_ "shortcut" then
    let callbackID := SlackInteractionEvent.CallbackID event in
    match shortcutListeners a !! callbackID with
    | Some handler => emit (CallHandler handler ctx)
    | None =>
        emit (Printf ("Unrecognized shortcut: " ++ callbackID ++ newline)) ;;
        Response ctx StatusBadRequest "Unrecognized shortcut callback_id" ∅
    end
  else if String.eqb Type_ "block_actions" then
    action <- at_index (SlackInteractionEvent.Actions event) 0 ;;
    match actionListeners a !! SlackInteractionAction.ActionID action with
    | Some handler => emit (CallHandler handler ctx)
    | None =>
        emit (Printf ("Unrecognized action: "
                      ++ SlackInteractionAction.ActionID action ++ newline)) ;;
        Response ctx StatusBadRequest "Unrecognized action action_id" ∅
    end
  else if String.eqb Type_ "view_submission" then
    view <- deref (SlackInteractionEvent.View event) ;;
    match submitListeners a !! SlackInteractionView.CallbackID view with
    | Some handler => emit (CallHandler handler ctx)
    | None =>
        emit (Printf ("Unrecognized submission event from view: "
                      ++ SlackInteractionView.CallbackID view ++ newline)) ;;
        Response ctx StatusBadRequest
          "Unrecognized view submission callback_id" ∅
    end
  else if String.eqb Type_ "view_closed" then
    view <- deref (SlackInteractionEvent.View event) ;;
    match closeListeners a !! SlackInteractionView.CallbackID view with
    | Some handler => emit (CallHandler handler ctx)
    | None =>
        emit (Printf ("Unrecognized closed event from view: "
                      ++ SlackInteractionView.CallbackID view ++ newline)) ;;
        Response ctx StatusBadRequest "Unrecognized view closed callback_id" ∅
    end
  else Response ctx StatusBadRequest "Unrecognized interaction type" ∅.

(** [interactions] (lines 192 to 266). The body is read and parsed as a
    form before the signature is checked. *)
Definition interactions (req : Request) : M Handler unit :=
  a <- receiver ;;
  let '(bodyText, err) := ReadAll (Body req) in
  match err with
  | Some _ => Response ctxRes StatusBadRequest "Invalid Body" ∅
  | None =>
  let '(queries, err) := url.ParseQuery bodyText in
  match err with
  | Some _ => Response ctxRes StatusBadRequest "Invalid Form Body" ∅
  | None =>
  let isAuthorizedCaller :=
    checkSlackSecret a (HeaderGet req "X-Slack-Signature")
      (HeaderGet req "X-Slack-Request-TimeStamp") bodyText in
  if isAuthorizedCaller then
    match json_Unmarshal w (url.Get queries "payload") with
    | Fail _ => Response ctxRes StatusBadRequest "Invalid JSON format" ∅
    | Done event =>
        team <- deref (SlackInteractionEvent.Team event) ;;
        let accessToken :=
          findTokenForWorkspace (Tokens (opts a))
            (SlackInteractionTeam.ID team) in
        if is_nil accessToken then
          emit (Printf ("App not installed for workspace: "
                        ++ url.Get queries "team_id" ++ newline)) ;;
          Response ctxRes StatusBadRequest "App not installed for workspace" ∅
        else
          tok <- deref accessToken ;;
          let ctx :=
            {| ctxBody := bodyText; ctxToken := Token tok;
               ctxReq := Some req |} in
          dispatchEvent a ctx event
    end
  else Response ctxRes StatusUnauthorized "Unauthorized" ∅
  end
  end.

(** [commands] (lines 269 to 309). The pointer [accessToken] is tested
    twice, as in the source. *)
Definition commands (req : Request) : M Handler unit :=
  a <- receiver ;;
  let '(bodyText, err) := ReadAll (Body req) in
  match err with
  | Some _ => Response ctxRes StatusBadRequest "Invalid Body" ∅
  | None =>
  let '(queries, err) := url.ParseQuery bodyText in
  match err with
  | Some _ => Response ctxRes StatusBadRequest "Invalid Form Body" ∅
  | None =>
  let isAuthorizedCaller :=
    checkSlackSecret a (HeaderGet req "X-Slack-Signature")
      (HeaderGet req "X-Slack-Request-TimeStamp") bodyText in
  if isAuthorizedCaller then
    let accessToken :=
      findTokenForWorkspace (Tokens (opts a)) (url.Get queries "team_id") in
    if is_nil accessToken then
      emit (Printf ("App not installed for workspace: "
                    ++ url.Get queries "team_id" ++ newline)) ;;
      Response ctxRes StatusBadRequest "App not installed for workspace" ∅
    else
      tok <- deref accessToken ;;
      let ctx :=
        {| ctxBody := bodyText; ctxToken := Token tok; ctxReq := Some req |} in
      if is_nil accessToken then
        Response ctx StatusBadRequest "Unrecognized workspace" ∅
      else
        match cmds a !! url.Get queries "command" with
        | Some handler => emit (CallHandler handler ctx)
        | None =>
            emit (Printf ("Unrecognized command: "
                          ++ url.Get queries "command" ++ newline)) ;;
            Response ctx StatusBadRequest "Unrecognized command" ∅
        end
  else Response ctxRes StatusUnauthorized "Unauthorized" ∅
  end
  end.

(** [index] (lines 311 to 313): the liveness route. *)
Definition index (req : Request) : M Handler unit :=
  Response ctxRes StatusOK "" ∅.

End Handlers.

(** ** Vocabulary of the properties *)

Section Observations.

Context {Handler : Type}.

(** The handlers a run called, in order. *)
Definition handlersCalled (t : list (effect Handler)) : list Handler :=
  flat_map (fun e => match e with CallHandler h _ => [h] | _ => [] end) t.

(** The status codes a run wrote. *)
Definition statusWritten (t : list (effect Handler)) : list Z :=
  flat_map (fun e => match e with WriteHeader c => [c] | _ => [] end) t.

(** The bodies a run wrote. *)
Definition bodyWritten (t : list (effect Handler)) : list string :=
  flat_map (fun e => match e with Write m => [m] | _ => [] end) t.

(** A response without headers: the status line, then the body. *)
Definition reply (code : Z) (message : string) : list (effect Handler) :=
  [WriteHeader code; Write message].

(** A run that returned, and a run that panicked. *)
Definition finished (a : SlackApp Handler) (t : list (effect Handler))
  : run Handler unit :=
  {| value := Some tt; final := a; trace := t |}.

Definition panicked (a : SlackApp Handler) (t : list (effect Handler))
  : run Handler unit :=
  {| value := None; final := a; trace := t |}.

(** A run ended in a rejection when it wrote one of the statuses 400, 401
    and 500. *)
Definition rejected (t : list (effect Handler)) : Prop :=
  Exists (fun c => c = StatusBadRequest \/ c = StatusUnauthorized
                   \/ c = StatusInternalServerError) (statusWritten t).

(** The body of a request and the form read from it. *)
Definition bodyOf (req : Request) : string := fst (ReadAll (Body req)).
Definition formOf (req : Request) : url.Values := fst (url.ParseQuery (bodyOf req)).

(** What both dispatchers answer before they look at the signature: the
    rejection of a body that cannot be read or is not a form. *)
Definition beforeAuthentication (req : Request) : option (list (effect Handler)) :=
  match snd (ReadAll (Body req)) with
  | Some _ => Some (reply StatusBadRequest "Invalid Body")
  | None =>
      match snd (url.ParseQuery (bodyOf req)) with
      | Some _ => Some (reply StatusBadRequest "Invalid Form Body")
      | None => None
      end
  end.

(** The body was read to its end and is a well-formed form. *)
Definition wellFormed (req : Request) : Prop :=
  snd (ReadAll (Body req)) = None /\ snd (url.ParseQuery (bodyOf req)) = None.

(** The signature header of the request verifies. *)
Definition signatureVerifies (a : SlackApp Handler) (req : Request) : bool :=
  checkSlackSecret a (HeaderGet req "X-Slack-Signature")
    (HeaderGet req "X-Slack-Request-TimeStamp") (bodyOf req).

Definition authenticated (a : SlackApp Handler) (req : Request) : Prop :=
  wellFormed req /\ signatureVerifies a req = true.

(** The context a dispatcher hands to a handler. *)
Definition handlerContext (req : Request) (tok : SlackAuthToken) : SlackContext :=
  {| ctxBody := bodyOf req; ctxToken := Token tok; ctxReq := Some req |}.

(** The signature of the specification: [v0=] and the lowercase
    hexadecimal HMAC-SHA256, keyed by the secret, of [v0:timestamp:body]. *)
Definition referenceSignature (secret timestamp body : string) : string :=
  "v0=" ++ Hex.EncodeToString
             (Hmac.Sum (bytes_of_string secret)
                (bytes_of_string ("v0:" ++ timestamp ++ ":" ++ body))).

(** The five categories of the specification, each with its registry, the
    key an event carries for it and its diagnostic. *)
Inductive category : Type :=
| Shortcut | BlockActions | ViewSubmission | ViewClosed | SlashCommand.

Definition categoryOf (Type_ : string) : option category :=
  if String.eqb Type_ "shortcut" then Some Shortcut
  else if String.eqb Type_ "block_actions" then Some BlockActions
  else if String.eqb Type_ "view_submission" then Some ViewSubmission
  else if String.eqb Type_ "view_closed" then Some ViewClosed
  else None.

Definition registry (a : SlackApp Handler) (c : category) : gmap string Handler :=
  match c with
  | Shortcut => shortcutListeners a
  | BlockActions => actionListeners a
  | ViewSubmission => submitListeners a
  | ViewClosed => closeListeners a
  | SlashCommand => cmds a
  end.

Definition keyOf (event : SlackInteractionEvent.t) (c : category) : option string :=
  match c with
  | Shortcut => Some (SlackInteractionEvent.CallbackID event)
  | BlockActions =>
      option_map SlackInteractionAction.ActionID
        (head (SlackInteractionEvent.Actions event))
  | ViewSubmission | ViewClosed =>
      option_map SlackInteractionView.CallbackID
        (SlackInteractionEvent.View event)
  | SlashCommand => None
  end.

Definition logLine (c : category) : string :=
  match c with
  | Shortcut => "Unrecognized shortcut: "
  | BlockActions => "Unrecognized action: "
  | ViewSubmission => "Unrecognized submission event from view: "
  | ViewClosed => "Unrecognized closed event from view: "
  | SlashCommand => "Unrecognized command: "
  end.

Definition diagnostic (c : category) : string :=
  match c with
  | Shortcut => "Unrecognized shortcut callback_id"
  | BlockActions => "Unrecognized action action_id"
  | ViewSubmission => "Unrecognized view submission callback_id"
  | ViewClosed => "Unrecognized view closed callback_id"
  | SlashCommand => "Unrecognized command"
  end.

(** What the specification asks of a dispatch on category [c] and key
    [key]: the one handler registered there, or the diagnostic. *)
Definition routed (a : SlackApp Handler) (c : category) (key : string)
  (ctx : SlackContext) : list (effect Handler) :=
  match registry a c !! key with
  | Some handler => [CallHandler handler ctx]
  | None => Printf (logLine c ++ key ++ newline)
            :: reply StatusBadRequest (diagnostic c)
  end.

(** The success page of the install exchange. *)
Definition successPage (w : World) (a : SlackApp Handler) : list (effect Handler) :=
  [ HeaderSet "Content-Type" "text/html; charset=utf-8";
    WriteHeader StatusOK;
    Write (strings.ReplaceAll (INSTALLSUCCESSPAGE w) "{{APP_NAME}}"
             (Name (opts a))) ].

(** The token an install response carries. *)
Definition installedToken (r : SlackOauth2Response.t) : SlackAuthToken :=
  {| Workspace := SlackOauth2Team.ID (SlackOauth2Response.Team r);
     Token := SlackOauth2Response.AccessToken r |}.

(** The answer of the platform to the POST of [appInstall]. *)
Definition platformAnswer (w : World) (a : SlackApp Handler) (req : Request)
  : result string :=
  http_Post w accessURL formContentType (url.Encode (installForm a req)).

End Observations.

(** ** A sample application, used to run the handlers on concrete requests *)

Module Demo.

Definition dq : string := String "034"%char "".
Definition q (s : string) : string := dq ++ s ++ dq.

(** JSON texts. *)
Definition clickJSON : string :=
  "{" ++ q "type" ++ ":" ++ q "block_actions" ++ ","
  ++ q "team" ++ ":{" ++ q "id" ++ ":" ++ q "T1" ++ "},"
  ++ q "actions" ++ ":[{" ++ q "action_id" ++ ":" ++ q "clicked_me" ++ "}]}".

Definition twoActionsJSON : string :=
  "{" ++ q "type" ++ ":" ++ q "block_actions" ++ ","
  ++ q "team" ++ ":{" ++ q "id" ++ ":" ++ q "T1" ++ "},"
  ++ q "actions" ++ ":[{" ++ q "action_id" ++ ":" ++ q "clicked_me" ++ "},{"
  ++ q "action_id" ++ ":" ++ q "other" ++ "}]}".

Definition noActionJSON : string :=
  "{" ++ q "type" ++ ":" ++ q "block_actions" ++ ","
  ++ q "team" ++ ":{" ++ q "id" ++ ":" ++ q "T1" ++ "},"
  ++ q "actions" ++ ":[]}".

Definition strangerJSON : string :=
  "{" ++ q "type" ++ ":" ++ q "shortcut" ++ ","
  ++ q "team" ++ ":{" ++ q "id" ++ ":" ++ q "T2" ++ "},"
  ++ q "callback_id" ++ ":" ++ q "open" ++ "}".

Definition grantedJSON : string :=
  "{" ++ q "ok" ++ ":true," ++ q "access_token" ++ ":" ++ q "tok" ++ ","
  ++ q "team" ++ ":{" ++ q "id" ++ ":" ++ q "T9" ++ "}}".

Definition deniedJSON : string :=
  "{" ++ q "ok" ++ ":false," ++ q "error" ++ ":" ++ q "invalid_code" ++ "}".

(** The values encoding/json decodes them to: absent fields keep their
    zero value. *)
Definition action (id : string) : SlackInteractionAction.t :=
  {| SlackInteractionAction.ActionID := id;
     SlackInteractionAction.BlockID := "";
     SlackInteractionAction.Value := "";
     SlackInteractionAction.Type_ := "";
     SlackInteractionAction.ActionTS := "" |}.

Definition event (type team callbackID : string)
  (actions : list SlackInteractionAction.t) : SlackInteractionEvent.t :=
  {| SlackInteractionEvent.Type_ := type;
     SlackInteractionEvent.APIAppID := "";
     SlackInteractionEvent.TriggerID := "";
     SlackInteractionEvent.Team :=
       Some {| SlackInteractionTeam.ID := team;
               SlackInteractionTeam.Domain := "" |};
     SlackInteractionEvent.ResponseURL := "";
     SlackInteractionEvent.Actions := actions;
     SlackInteractionEvent.View := None;
     SlackInteractionEvent.CallbackID := callbackID;
     SlackInteractionEvent.ActionTS := "" |}.

Definition noTeam : SlackOauth2Team.t :=
  {| SlackOauth2Team.Name := ""; SlackOauth2Team.ID := "" |}.

Definition oauth (ok : bool) (token team : string) : SlackOauth2Response.t :=
  {| SlackOauth2Response.Ok := ok;
     SlackOauth2Response.AccessToken := token;
     SlackOauth2Response.TokenType := "";
     SlackOauth2Response.Scope := "";
     SlackOauth2Response.BotUserID := "";
     SlackOauth2Response.AppID := "";
     SlackOauth2Response.Team :=
       {| SlackOauth2Team.Name := ""; SlackOauth2Team.ID := team |};
     SlackOauth2Response.Enterprise := noTeam;
     SlackOauth2Response.AuthedUser :=
       {| SlackOauth2User.ID := ""; SlackOauth2User.Scope := "";
          SlackOauth2User.AccessToken := ""; SlackOauth2User.TokenType := "" |} |}.

(** A world that decodes the texts above, rejects any other text, answers
    the code [good] with a grant, the code [denied] with a refusal and
    fails to connect otherwise. *)
Definition world : World :=
  {| INSTALLSUCCESSPAGE := "<h1>{{APP_NAME}} is installed</h1>";
     json_Unmarshal := fun s =>
       if String.eqb s clickJSON then
         Done (event "block_actions" "T1" "" [action "clicked_me"])
       else if String.eqb s twoActionsJSON then
         Done (event "block_actions" "T1" "" [action "clicked_me"; action "other"])
       else if String.eqb s noActionJSON then
         Done (event "block_actions" "T1" "" [])
       else if String.eqb s strangerJSON then
         Done (event "shortcut" "T2" "open" [])
       else Fail (OtherError "invalid character");
     json_Decode := fun s =>
       if String.eqb s grantedJSON then Done (oauth true "tok" "T9")
       else if String.eqb s deniedJSON then Done (oauth false "" "")
       else Fail (OtherError "invalid character");
     http_Post := fun _ _ body =>
       if String.eqb body "client_id=cid&client_secret=cs&code=good"
       then Done grantedJSON
       else if String.eqb body "client_id=cid&client_secret=cs&code=denied"
       then Done deniedJSON
       else Fail (OtherError "dial tcp: i/o timeout") |}.

(** Handlers are named by strings. *)
Definition options : SlackAppOptions :=
  {| Name := "Dev Bot";
     Prefix := "dev";
     Tokens := [ {| Workspace := "T1"; Token := "xoxb-T1" |} ];
     ClientSecret := "cs";
     ClientID := "cid";
     SigningSecret := "s" |}.

Definition app : SlackApp string :=
  OnViewClose
    (OnViewSubmission
       (OnShortcut
          (OnAction
             (OnCommand (InitializeSlackApp options) "/ping" "onPing")
             "clicked_me" "onClick")
          "open" "onOpen")
       "form" "onSubmit")
    "form" "onClose".

(** The same application with an install callback that keeps the default
    page. *)
Definition appWithCallback : SlackApp string :=
  OnAppInstall app (Some (fun _ _ => false)).

Definition request (signature timestamp body : string) : Request :=
  {| HeaderGet := fun name =>
       if String.eqb name "X-Slack-Signature" then signature
       else if String.eqb name "X-Slack-Request-TimeStamp" then timestamp
       else "";
     Body := (body, None);
     RawQuery := "" |}.

Definition installRequest (code : string) : Request :=
  {| HeaderGet := fun _ => "";
     Body := ("", None);
     RawQuery := "code=" ++ code |}.

Definition ping : Request :=
  request "v0=0981216d4c08f15a5da6242ba1b3a73690a0dc32863c4354814406860e4655fe"
    "1000" "team_id=T1&command=%2Fping".

Definition pingFromStranger : Request :=
  request "v0=07e9e9da5f318b9287bf1e0b6d56c2a45cc7aa39160869186e70b68ab4e9ec28"
    "1000" "team_id=T2&command=%2Fping".

Definition pingUnsigned : Request :=
  request "" "1000" "team_id=T1&command=%2Fping".

Definition brokenForm : Request := request "" "1000" "%zz".

Definition click : Request :=
  request "v0=5ff6a8987205053d682d40a3d9cf88a41eab00fabff5a5af5b7fb4f10689b96a"
    "1000"
    "payload=%7B%22type%22%3A%22block_actions%22%2C%22team%22%3A%7B%22id%22%3A%22T1%22%7D%2C%22actions%22%3A%5B%7B%22action_id%22%3A%22clicked_me%22%7D%5D%7D".

Definition twoActions : Request :=
  request "v0=b4e226ecc3b9ff825020f9f767448170037e1162e45cdcf9dfb8700dcae4b445"
    "1000"
    "payload=%7B%22type%22%3A%22block_actions%22%2C%22team%22%3A%7B%22id%22%3A%22T1%22%7D%2C%22actions%22%3A%5B%7B%22action_id%22%3A%22clicked_me%22%7D%2C%7B%22action_id%22%3A%22other%22%7D%5D%7D".

Definition noAction : Request :=
  request "v0=5a98ed66aa06aa3f31b75cefe122ab1aeecb5b504ba3104c74ab1ce5fb2e04e8"
    "1000"
    "payload=%7B%22type%22%3A%22block_actions%22%2C%22team%22%3A%7B%22id%22%3A%22T1%22%7D%2C%22actions%22%3A%5B%5D%7D".

Definition shortcutFromStranger : Request :=
  request "v0=b45702dfef20828099dd77c8c96c52a0a8aea28eb190aaeb23d0539502a2c45f"
    "1000"
    "payload=%7B%22type%22%3A%22shortcut%22%2C%22team%22%3A%7B%22id%22%3A%22T2%22%7D%2C%22callback_id%22%3A%22open%22%7D".

End Demo.

(** ** Vocabulary of the further properties *)

#[global] Instance category_eq_dec : EqDecision category.
Proof. solve_decision. Defined.

Section Registration.

Context {Handler : Type}.

(** The registration function of each category. *)
Definition register (c : category) (a : SlackApp Handler) (key : string)
  (handler : Handler) : SlackApp Handler :=
  match c with
  | Shortcut => OnShortcut a key handler
  | BlockActions => OnAction a key handler
  | ViewSubmission => OnViewSubmission a key handler
  | ViewClosed => OnViewClose a key handler
  | SlashCommand => OnCommand a key handler
  end.





(** The posts of a run. *)
Definition postsMade (t : list (effect Handler)) : list (string * string * string) :=
  flat_map (fun e => match e with
                     | HttpPost target contentType body =>
                         [(target, contentType, body)]
                     | _ => []
                     end) t.

End Registration.

(** Further sample requests: events without team and without view, a view
    submission, a shortcut, and commands of other teams and names. *)
Module Cases.

Definition noTeamJSON : string :=
  "{" ++ Demo.q "type" ++ ":" ++ Demo.q "shortcut" ++ ","
  ++ Demo.q "callback_id" ++ ":" ++ Demo.q "open" ++ "}".

Definition noViewJSON : string :=
  "{" ++ Demo.q "type" ++ ":" ++ Demo.q "view_submission" ++ ","
  ++ Demo.q "team" ++ ":{" ++ Demo.q "id" ++ ":" ++ Demo.q "T1" ++ "}}".

Definition submitJSON : string :=
  "{" ++ Demo.q "type" ++ ":" ++ Demo.q "view_submission" ++ ","
  ++ Demo.q "team" ++ ":{" ++ Demo.q "id" ++ ":" ++ Demo.q "T1" ++ "},"
  ++ Demo.q "view" ++ ":{" ++ Demo.q "callback_id" ++ ":" ++ Demo.q "form" ++ "}}".

Definition openJSON : string :=
  "{" ++ Demo.q "type" ++ ":" ++ Demo.q "shortcut" ++ ","
  ++ Demo.q "team" ++ ":{" ++ Demo.q "id" ++ ":" ++ Demo.q "T1" ++ "},"
  ++ Demo.q "callback_id" ++ ":" ++ Demo.q "open" ++ "}".

Definition view (callbackID : string) : SlackInteractionView.t :=
  {| SlackInteractionView.ID := "";
     SlackInteractionView.TeamID := "";
     SlackInteractionView.Type_ := "";
     SlackInteractionView.PrivateMetadata := "";
     SlackInteractionView.CallbackID := callbackID |}.

Definition event (type : string) (team : option string) (callbackID : string)
  (v : option SlackInteractionView.t) : SlackInteractionEvent.t :=
  {| SlackInteractionEvent.Type_ := type;
     SlackInteractionEvent.APIAppID := "";
     SlackInteractionEvent.TriggerID := "";
     SlackInteractionEvent.Team :=
       option_map (fun id => {| SlackInteractionTeam.ID := id;
                                SlackInteractionTeam.Domain := "" |}) team;
     SlackInteractionEvent.ResponseURL := "";
     SlackInteractionEvent.Actions := [];
     SlackInteractionEvent.View := v;
     SlackInteractionEvent.CallbackID := callbackID;
     SlackInteractionEvent.ActionTS := "" |}.

Definition world : World :=
  {| INSTALLSUCCESSPAGE := INSTALLSUCCESSPAGE Demo.world;
     json_Unmarshal := fun s =>
       if String.eqb s noTeamJSON then Done (event "shortcut" None "open" None)
       else if String.eqb s noViewJSON then
         Done (event "view_submission" (Some "T1") "" None)
       else if String.eqb s submitJSON then
         Done (event "view_submission" (Some "T1") "" (Some (view "form")))
       else if String.eqb s openJSON then
         Done (event "shortcut" (Some "T1") "open" None)
       else json_Unmarshal Demo.world s;
     json_Decode := json_Decode Demo.world;
     http_Post := http_Post Demo.world |}.

Definition noTeam : Request :=
  Demo.request
    "v0=4a07efde397941aec5be8ef34085a86355c72a534f58e4a57fe54243adc695d0"
    "1000"
    "payload=%7B%22type%22%3A%22shortcut%22%2C%22callback_id%22%3A%22open%22%7D".


Definition submit : Request :=
  Demo.request
    "v0=4f91041f19bab2f0977de10f2f1b5195b168945ee6f4c8abf816cd24768a1e8d"
    "1000"
    "payload=%7B%22type%22%3A%22view_submission%22%2C%22team%22%3A%7B%22id%22%3A%22T1%22%7D%2C%22view%22%3A%7B%22callback_id%22%3A%22form%22%7D%7D".

Definition openShortcut : Request :=
  Demo.request
    "v0=6cac089a70e3853cad7a7e2c2349fee73b2425a845e3d4a4eb62e6d2fa18d88d"
    "1000"
    "payload=%7B%22type%22%3A%22shortcut%22%2C%22team%22%3A%7B%22id%22%3A%22T1%22%7D%2C%22callback_id%22%3A%22open%22%7D".

Definition pingFromT9 : Request :=
  Demo.request
    "v0=f5a46020e8c6a9e651e4b279162f7a57a83c01089aed709d02166598c6133434"
    "1000" "team_id=T9&command=%2Fping".

Definition deploy : Request :=
  Demo.request
    "v0=4d311a99484b299e2e39386095d73c9a70705fde4a2a78ab941e01cb39e9c9dc"
    "1000" "team_id=T1&command=%2Fdeploy".

End Cases.

(** A platform that answers the code [again] with a grant for team T1,
    the team [Demo.app] has a token for, and a new token. *)
Module Reinstall.

Definition grantedJSON : string :=
  "{" ++ Demo.q "ok" ++ ":true," ++ Demo.q "access_token" ++ ":"
  ++ Demo.q "xoxb-new" ++ ","
  ++ Demo.q "team" ++ ":{" ++ Demo.q "id" ++ ":" ++ Demo.q "T1" ++ "}}".

Definition world : World :=
  {| INSTALLSUCCESSPAGE := INSTALLSUCCESSPAGE Demo.world;
     json_Unmarshal := json_Unmarshal Demo.world;
     json_Decode := fun s =>
       if String.eqb s grantedJSON then Done (Demo.oauth true "xoxb-new" "T1")
       else json_Decode Demo.world s;
     http_Post := fun target contentType body =>
       if String.eqb body "client_id=cid&client_secret=cs&code=again"
       then Done grantedJSON
       else http_Post Demo.world target contentType body |}.

End Reinstall.

(** ** [ServeApp] *)

(** The four handlers [ServeApp] registers. *)
Inductive route : Type :=
| IndexRoute | InstallRoute | CommandsRoute | InteractionsRoute.

Module http.

(** The default [ServeMux] of net/http, as far as [ServeApp] uses it: the
    patterns registered so far with their handlers, newest first.
    [HandleFunc] panics ([None]) on an empty pattern and on a pattern that
    is registered already (Go before 1.22, where a pattern is a plain
    path). *)
Definition ServeMux : Type := list (string * route).

Definition registered (mux : ServeMux) (pattern : string) : bool :=
  existsb (fun entry => String.eqb (fst entry) pattern) mux.

Definition HandleFunc (mux : ServeMux) (pattern : string) (handler : route)
  : option ServeMux :=
  if String.eqb pattern "" then None
  else if registered mux pattern then None
  else Some ((pattern, handler) :: mux).

End http.

(** What [ServeApp] has set up when it calls [ListenAndServe]: the mux, the
    address of the server it stored in the application and whether it
    started the callback. *)
Record Served : Type :=
  { mux : http.ServeMux;
    Addr : string;
    callbackStarted : bool }.

(** [ServeApp] (lines 316 to 329) up to its call of [ListenAndServe]; [None]
    is a panic. The port is a [uint16]; [cb] tells whether the callback is
    not nil. *)
Definition ServeApp {Handler : Type} (a : SlackApp Handler) (port : N)
  (cb : bool) (mux : http.ServeMux) : option Served :=
  if (String.length (Prefix (opts a)) =? 0)%nat then None
  else
    let addr := ":" ++ NilZero.string_of_uint (N.to_uint (port mod 65536)) in
    match http.HandleFunc mux "/" IndexRoute with
    | None => None
    | Some mux =>
    match http.HandleFunc mux ("/" ++ Prefix (opts a) ++ "/install")
            InstallRoute with
    | None => None
    | Some mux =>
    match http.HandleFunc mux ("/" ++ Prefix (opts a) ++ "/commands")
            CommandsRoute with
    | None => None
    | Some mux =>
    match http.HandleFunc mux ("/" ++ Prefix (opts a) ++ "/")
            InteractionsRoute with
    | None => None
    | Some mux => Some {| mux := mux; Addr := addr; callbackStarted := cb |}
    end
    end
    end
    end.

(** * Properties *)

(** ** The library models agree with published test vectors *)

Example sha256_constants :
  List.length Sha256.K = 64%nat
  /\ nth 0 Sha256.K 0 = 0x428a2f98
  /\ nth 63 Sha256.K 0 = 0xc67178f2
  /\ nth 0 Sha256.H0 0 = 0x6a09e667
  /\ nth 7 Sha256.H0 0 = 0x5be0cd19.
Proof. vm_compute. repeat split. Qed.

Example sha256_abc :
  Hex.EncodeToString (Sha256.Sum256 (bytes_of_string "abc"))
  = "ba7816bf8f01cfea414140de5dae2223b00361a396177a9cb410ff61f20015ad".
Proof. vm_compute. reflexivity. Qed.

Example sha256_empty :
  Hex.EncodeToString (Sha256.Sum256 [])
  = "e3b0c44298fc1c149afbf4c8996fb92427ae41e4649b934ca495991b7852b855".
Proof. vm_compute. reflexivity. Qed.

Example sha256_two_blocks :
  Hex.EncodeToString (Sha256.Sum256 (repeat 97 70))
  = "6bd5e5034855a11241f0dee8fc72850ffd9955b28347a86428b5fa19119f6ad0".
Proof. vm_compute. reflexivity. Qed.

Example hmac_rfc4231_case2 :
  Hex.EncodeToString
    (Hmac.Sum (bytes_of_string "Jefe")
              (bytes_of_string "what do ya want for nothing?"))
  = "5bdcc146bf60754e6a042426089575c75a003f089d2739839dec58b964ec3843".
Proof. vm_compute. reflexivity. Qed.

Example hmac_long_key :
  Hex.EncodeToString (Hmac.Sum (repeat 107 100) (bytes_of_string "hello"))
  = "3fd578d761a4f6703009e92d2e8a0aea22ab9ab50d4ad250dc95d8c369dec3f5".
Proof. vm_compute. reflexivity. Qed.

Example parse_command_form :
  let form := url.ParseQuery "team_id=T1&command=%2Fping" in
  snd form = None
  /\ url.Get (fst form) "team_id" = "T1"
  /\ url.Get (fst form) "command" = "/ping"
  /\ url.Get (fst form) "payload" = "".
Proof. vm_compute. repeat split. Qed.

Example parse_bad_escape :
  snd (url.ParseQuery "a=1&b=%4") = Some (EscapeError "%4").
Proof. vm_compute. reflexivity. Qed.

Example encode_sorts_keys :
  url.Encode (url.Set_ (url.Set_ (url.Set_ ∅ "code" "a b/c~") "client_id" "1.2")
                "client_secret" "s&=")
  = "client_id=1.2&client_secret=s%26%3D&code=a+b%2Fc~".
Proof. vm_compute. reflexivity. Qed.

Example replace_every_occurrence :
  strings.ReplaceAll "<{{APP_NAME}}|{{APP_NAME}}{{APP_NAME}}|{{APP" "{{APP_NAME}}" "Bot"
  = "<Bot|BotBot|{{APP".
Proof. vm_compute. reflexivity. Qed.

(** ** The registry of workspace tokens *)

Lemma find_app (l1 l2 : list SlackAuthToken) (workspace : string) :
  findTokenForWorkspace (l1 ++ l2) workspace
  = match findTokenForWorkspace l1 workspace with
    | Some t => Some t
    | None => findTokenForWorkspace l2 workspace
    end.
Proof.
  induction l1 as [|t l1 IH]; simpl; [reflexivity|].
  destruct (String.eqb (Workspace t) workspace); [reflexivity|exact IH].
Qed.

Lemma find_None (tokens : list SlackAuthToken) (workspace : string) :
  findTokenForWorkspace tokens workspace = None
  <-> Forall (fun t => Workspace t <> workspace) tokens.
Proof.
  induction tokens as [|t tokens IH]; simpl.
  - split; [constructor|reflexivity].
  - destruct (String.eqb_spec (Workspace t) workspace) as [E|N].
    + split; [discriminate|]. intros H. inversion H; subst. contradiction.
    + rewrite IH. split.
      * intros H. constructor; assumption.
      * intros H. inversion H; assumption.
Qed.

Lemma find_Some (tokens : list SlackAuthToken) (workspace : string)
  (t : SlackAuthToken) :
  findTokenForWorkspace tokens workspace = Some t
  <-> exists before after,
        tokens = (before ++ t :: after)%list
        /\ Workspace t = workspace
        /\ Forall (fun x => Workspace x <> workspace) before.
Proof.
  induction tokens as [|x tokens IH]; simpl.
  - split; [discriminate|].
    intros (before & after & E & _). destruct before; discriminate.
  - destruct (String.eqb_spec (Workspace x) workspace) as [E|N].
    + split.
      * intros [= ->]. exists [], tokens. repeat split; [assumption|constructor].
      * intros (before & after & Hl & Hw & Hb).
        destruct before as [|y before]; simpl in Hl.
        -- injection Hl as -> _. reflexivity.
        -- injection Hl as -> _. inversion Hb; subst. contradiction.
    + rewrite IH. split.
      * intros (before & after & -> & Hw & Hb).
        exists (x :: before), after. repeat split; [assumption|].
        constructor; assumption.
      * intros (before & after & Hl & Hw & Hb).
        destruct before as [|y before]; simpl in Hl.
        -- injection Hl as -> _. contradiction.
        -- injection Hl as -> ->. exists before, after.
           inversion Hb; subst. repeat split; assumption.
Qed.

Lemma Tokens_AddToken {Handler : Type} (a : SlackApp Handler)
  (token : SlackAuthToken) :
  Tokens (opts (AddToken a token)) = (Tokens (opts a) ++ [token])%list.
Proof. reflexivity. Qed.

Lemma find_AddToken {Handler : Type} (a : SlackApp Handler)
  (token : SlackAuthToken) (workspace : string) :
  findTokenForWorkspace (Tokens (opts (AddToken a token))) workspace
  = match findTokenForWorkspace (Tokens (opts a)) workspace with
    | Some earlier => Some earlier
    | None =>
        if String.eqb (Workspace token) workspace then Some token else None
    end.
Proof.
  rewrite Tokens_AddToken, find_app. simpl.
  destruct (String.eqb (Workspace token) workspace); reflexivity.
Qed.

(** C6, as the claim states it, fails: adding a token for a workspace that
    already has one leaves [find] on the earlier token. *)
Lemma add_then_find_keeps_earlier_token :
  let earlier := {| Workspace := "T1"; Token := "xoxb-T1" |} in
  let added := {| Workspace := "T1"; Token := "xoxb-new" |} in
  findTokenForWorkspace (Tokens (opts (AddToken Demo.app added))) "T1"
  = Some earlier
  /\ Some earlier <> Some added.
Proof. split; [reflexivity|discriminate]. Qed.

(** C6, amended: after [AddToken], [findTokenForWorkspace] returns the
    earlier token of the workspace when there is one, and the added token
    when the workspace had none and is the one asked for; a workspace with
    no entry yields nil, never another token; a token found is the first
    of its workspace in insertion order. *)
Theorem add_token_then_find {Handler : Type} (a : SlackApp Handler)
  (token : SlackAuthToken) (workspace : string) :
  findTokenForWorkspace (Tokens (opts (AddToken a token))) workspace
  = match findTokenForWorkspace (Tokens (opts a)) workspace with
    | Some earlier => Some earlier
    | None =>
        if String.eqb (Workspace token) workspace then Some token else None
    end
  /\ (findTokenForWorkspace (Tokens (opts a)) (Workspace token) = None ->
      findTokenForWorkspace (Tokens (opts (AddToken a token))) (Workspace token)
      = Some token)
  /\ (Forall (fun t => Workspace t <> workspace) (Tokens (opts a)) ->
      findTokenForWorkspace (Tokens (opts a)) workspace = None)
  /\ (forall found,
        findTokenForWorkspace (Tokens (opts a)) workspace = Some found ->
        exists before after,
          Tokens (opts a) = (before ++ found :: after)%list
          /\ Workspace found = workspace
          /\ Forall (fun t => Workspace t <> workspace) before).
Proof.
  split; [apply find_AddToken|]. split; [|split].
  - intros Hnone. rewrite find_AddToken, Hnone, String.eqb_refl. reflexivity.
  - apply find_None.
  - intros found. apply find_Some.
Qed.

Lemma add_token_then_find_witness :
  findTokenForWorkspace (Tokens (opts Demo.app)) "T9" = None
  /\ findTokenForWorkspace
       (Tokens (opts (AddToken Demo.app {| Workspace := "T9"; Token := "tok" |})))
       "T9"
     = Some {| Workspace := "T9"; Token := "tok" |}.
Proof.
  split; [reflexivity|].
  apply (add_token_then_find Demo.app {| Workspace := "T9"; Token := "tok" |} "T9").
  reflexivity.
Defined.

(** ** The signature check *)

Lemma Join_three (x y z sep : string) :
  strings.Join [x; y; z] sep = x ++ sep ++ y ++ sep ++ z.
Proof. reflexivity. Qed.

Lemma Join_two (x y sep : string) : strings.Join [x; y] sep = x ++ sep ++ y.
Proof. reflexivity. Qed.

(** Every digit [Hex.digit] yields is one of [0123456789abcdef]. *)
Lemma digit_lowercase (n : Z) :
  In (Hex.digit n) (list_ascii_of_string Hex.hextable).
Proof.
  unfold Hex.digit.
  destruct (String.get (Z.to_nat n) Hex.hextable) as [c|] eqn:E.
  - revert E. generalize (Z.to_nat n) as k. intros k.
    do 16 (destruct k as [|k]; [intros [= <-]; simpl; tauto|]).
    discriminate.
  - simpl. tauto.
Qed.

Lemma EncodeToString_lowercase (src : list Z) :
  Forall (fun c => In c (list_ascii_of_string Hex.hextable))
    (list_ascii_of_string (Hex.EncodeToString src)).
Proof.
  induction src as [|b src IH]; simpl; [constructor|].
  constructor; [apply digit_lowercase|].
  constructor; [apply digit_lowercase|exact IH].
Qed.

Lemma EncodeToString_length (src : list Z) :
  String.length (Hex.EncodeToString src) = (2 * List.length src)%nat.
Proof. induction src as [|b src IH]; simpl; [reflexivity|]. rewrite IH. lia. Qed.

Lemma checkSlackSecret_reference {Handler : Type} (a : SlackApp Handler)
  (signing ts body : string) :
  checkSlackSecret a signing ts body
  = String.eqb (referenceSignature (SigningSecret (opts a)) ts body) signing.
Proof.
  unfold checkSlackSecret, referenceSignature.
  rewrite Join_three, Join_two.
  destruct (String.eqb _ signing); reflexivity.
Qed.

(** C3: [checkSlackSecret] returns true exactly when the signature given is
    [v0=] followed by the hexadecimal HMAC-SHA256, keyed by the signing
    secret, of [v0:timestamp:body], and false otherwise; that encoding has
    two digits of [0123456789abcdef] for each byte of the digest. The check
    is a total function of its arguments and yields nothing but its
    boolean. *)
Theorem checkSlackSecret_spec {Handler : Type} (a : SlackApp Handler)
  (signing ts body : string) :
  let secret := SigningSecret (opts a) in
  let digest :=
    Hmac.Sum (bytes_of_string secret)
      (bytes_of_string ("v0:" ++ ts ++ ":" ++ body)) in
  (checkSlackSecret a signing ts body = true
   <-> signing = "v0=" ++ Hex.EncodeToString digest)
  /\ (checkSlackSecret a signing ts body = false
      <-> signing <> "v0=" ++ Hex.EncodeToString digest)
  /\ Forall (fun c => In c (list_ascii_of_string "0123456789abcdef"))
       (list_ascii_of_string (Hex.EncodeToString digest))
  /\ String.length (Hex.EncodeToString digest) = (2 * List.length digest)%nat.
Proof.
  intros secret digest.
  rewrite checkSlackSecret_reference. unfold referenceSignature.
  fold secret. fold digest.
  destruct (String.eqb_spec ("v0=" ++ Hex.EncodeToString digest) signing) as [E|N].
  - repeat split; try congruence; try discriminate.
    + apply EncodeToString_lowercase.
    + apply EncodeToString_length.
  - repeat split; try congruence; try discriminate.
    + apply EncodeToString_lowercase.
    + apply EncodeToString_length.
Qed.

Lemma checkSlackSecret_spec_witness :
  checkSlackSecret Demo.app
    "v0=0981216d4c08f15a5da6242ba1b3a73690a0dc32863c4354814406860e4655fe"
    "1000" "team_id=T1&command=%2Fping" = true.
Proof.
  apply (checkSlackSecret_spec Demo.app
           "v0=0981216d4c08f15a5da6242ba1b3a73690a0dc32863c4354814406860e4655fe"
           "1000" "team_id=T1&command=%2Fping").
  vm_compute. reflexivity.
Defined.

(** A signature that does not start with [v0=] never verifies, whatever the
    secret: in particular a request without the header. *)
Lemma missing_signature_fails {Handler : Type} (a : SlackApp Handler)
  (ts body : string) :
  checkSlackSecret a "" ts body = false.
Proof. rewrite checkSlackSecret_reference. reflexivity. Qed.

(** ** The handlers, stage by stage *)

Section Stages.

Context {Handler : Type}.
Variable w : World.
Implicit Types (a : SlackApp Handler) (req : Request) (ctx : SlackContext).

Lemma Response_plain ctx (code : Z) (message : string) a :
  Response ctx code message ∅ a = finished a (reply code message).
Proof.
  unfold Response. rewrite map_to_list_empty. reflexivity.
Qed.

Lemma Response_one_header ctx (code : Z) (message k v : string) a :
  Response ctx code message {[ k := v ]} a
  = finished a (HeaderSet k v :: reply code message).
Proof.
  unfold Response. rewrite map_to_list_singleton. reflexivity.
Qed.

Lemma interactions_unverified req a :
  signatureVerifies a req = false ->
  interactions w req a
  = finished a (default (reply StatusUnauthorized "Unauthorized")
                  (beforeAuthentication req)).
Proof.
  unfold signatureVerifies, beforeAuthentication, interactions, bodyOf, ReadAll.
  intros Hsig. unfold bind, receiver. simpl.
  destruct (Body req) as [bodyText [e|]]; simpl in *.
  - rewrite Response_plain. reflexivity.
  - destruct (url.ParseQuery bodyText) as [queries [e|]]; simpl.
    + rewrite Response_plain. reflexivity.
    + rewrite Hsig, Response_plain. reflexivity.
Qed.

Lemma commands_unverified req a :
  signatureVerifies a req = false ->
  commands req a
  = finished a (default (reply StatusUnauthorized "Unauthorized")
                  (beforeAuthentication req)).
Proof.
  unfold signatureVerifies, beforeAuthentication, commands, bodyOf, ReadAll.
  intros Hsig. unfold bind, receiver. simpl.
  destruct (Body req) as [bodyText [e|]]; simpl in *.
  - rewrite Response_plain. reflexivity.
  - destruct (url.ParseQuery bodyText) as [queries [e|]]; simpl.
    + rewrite Response_plain. reflexivity.
    + rewrite Hsig, Response_plain. reflexivity.
Qed.

(** The switch of [interactions], by category and key. *)
Lemma dispatchEvent_routed a ctx (event : SlackInteractionEvent.t) a' :
  dispatchEvent a ctx event a'
  = match categoryOf (SlackInteractionEvent.Type_ event) with
    | None => finished a' (reply StatusBadRequest "Unrecognized interaction type")
    | Some c =>
        match keyOf event c with
        | Some key => finished a' (routed a c key ctx)
        | None => panicked a' []
        end
    end.
Proof.
  unfold dispatchEvent, categoryOf.
  destruct (String.eqb _ "shortcut").
  { unfold routed; simpl.
    destruct (shortcutListeners a !! _); [reflexivity|].
    unfold bind; simpl. rewrite Response_plain. reflexivity. }
  destruct (String.eqb _ "block_actions").
  { unfold routed, at_index, bind; simpl.
    destruct (SlackInteractionEvent.Actions event) as [|action rest]; simpl;
      [reflexivity|].
    destruct (actionListeners a !! _); [reflexivity|].
    simpl. rewrite Response_plain. reflexivity. }
  destruct (String.eqb _ "view_submission").
  { unfold routed, deref, bind; simpl.
    destruct (SlackInteractionEvent.View event) as [view|]; simpl;
      [|reflexivity].
    destruct (submitListeners a !! _); [reflexivity|].
    simpl. rewrite Response_plain. reflexivity. }
  destruct (String.eqb _ "view_closed").
  { unfold routed, deref, bind; simpl.
    destruct (SlackInteractionEvent.View event) as [view|]; simpl;
      [|reflexivity].
    destruct (closeListeners a !! _); [reflexivity|].
    simpl. rewrite Response_plain. reflexivity. }
  apply Response_plain.
Qed.

(** [interactions] on an authenticated request. *)
Lemma interactions_authenticated req a :
  authenticated a req ->
  interactions w req a
  = match json_Unmarshal w (url.Get (formOf req) "payload") with
    | Fail _ => finished a (reply StatusBadRequest "Invalid JSON format")
    | Done event =>
        match SlackInteractionEvent.Team event with
        | None => panicked a []
        | Some team =>
            match findTokenForWorkspace (Tokens (opts a))
                    (SlackInteractionTeam.ID team) with
            | None =>
                finished a
                  (Printf ("App not installed for workspace: "
                           ++ url.Get (formOf req) "team_id" ++ newline)
                   :: reply StatusBadRequest "App not installed for workspace")
            | Some tok => dispatchEvent a (handlerContext req tok) event a
            end
        end
    end.
Proof.
  unfold authenticated, wellFormed, signatureVerifies, handlerContext, formOf,
    bodyOf, ReadAll, interactions.
  intros [[Hread Hform] Hsig]. unfold bind, receiver. simpl.
  destruct (Body req) as [bodyText e]; simpl in *. subst e.
  destruct (url.ParseQuery bodyText) as [queries e]; simpl in *. subst e.
  rewrite Hsig.
  destruct (json_Unmarshal w _) as [event|e];
    [|rewrite Response_plain; reflexivity].
  destruct (SlackInteractionEvent.Team event) as [team|]; simpl; [|reflexivity].
  destruct (findTokenForWorkspace _ _) as [tok|]; simpl.
  - destruct (dispatchEvent a _ event a) as [v f t]. simpl.
    destruct v; reflexivity.
  - rewrite Response_plain. reflexivity.
Qed.

(** [commands] on an authenticated request. *)
Lemma commands_authenticated req a :
  authenticated a req ->
  commands req a
  = match findTokenForWorkspace (Tokens (opts a))
            (url.Get (formOf req) "team_id") with
    | None =>
        finished a
          (Printf ("App not installed for workspace: "
                   ++ url.Get (formOf req) "team_id" ++ newline)
           :: reply StatusBadRequest "App not installed for workspace")
    | Some tok =>
        finished a
          (routed a SlashCommand (url.Get (formOf req) "command")
             (handlerContext req tok))
    end.
Proof.
  unfold authenticated, wellFormed, signatureVerifies, handlerContext, formOf,
    bodyOf, ReadAll, commands.
  intros [[Hread Hform] Hsig]. unfold bind, receiver. simpl.
  destruct (Body req) as [bodyText e]; simpl in *. subst e.
  destruct (url.ParseQuery bodyText) as [queries e]; simpl in *. subst e.
  rewrite Hsig.
  destruct (findTokenForWorkspace _ _) as [tok|]; simpl.
  - unfold routed; simpl. destruct (cmds a !! _); simpl; [reflexivity|].
    rewrite Response_plain. reflexivity.
  - rewrite Response_plain. reflexivity.
Qed.

(** What precedes the signature check does not depend on the signature. *)
Lemma interactions_malformed req a (t : list (effect Handler)) :
  beforeAuthentication req = Some t -> interactions w req a = finished a t.
Proof.
  unfold beforeAuthentication, interactions, bodyOf, ReadAll.
  unfold bind, receiver. simpl.
  destruct (Body req) as [bodyText [e|]]; simpl.
  - intros [= <-]. rewrite Response_plain. reflexivity.
  - destruct (url.ParseQuery bodyText) as [queries [e|]]; simpl.
    + intros [= <-]. rewrite Response_plain. reflexivity.
    + discriminate.
Qed.

Lemma commands_malformed req a (t : list (effect Handler)) :
  beforeAuthentication req = Some t -> commands req a = finished a t.
Proof.
  unfold beforeAuthentication, commands, bodyOf, ReadAll.
  unfold bind, receiver. simpl.
  destruct (Body req) as [bodyText [e|]]; simpl.
  - intros [= <-]. rewrite Response_plain. reflexivity.
  - destruct (url.ParseQuery bodyText) as [queries [e|]]; simpl.
    + intros [= <-]. rewrite Response_plain. reflexivity.
    + discriminate.
Qed.

Lemma beforeAuthentication_None req :
  @beforeAuthentication Handler req = None <-> wellFormed req.
Proof.
  unfold beforeAuthentication, wellFormed.
  destruct (snd (ReadAll (Body req))) as [e|].
  - split; [discriminate|]. intros [H _]. discriminate.
  - destruct (snd (url.ParseQuery (bodyOf req))) as [e|].
    + split; [discriminate|]. intros [_ H]. discriminate.
    + split; [split|]; reflexivity.
Qed.

(** A request is stopped before authentication, fails it, or passes it. *)
Lemma request_cases req a :
  (exists t, @beforeAuthentication Handler req = Some t)
  \/ signatureVerifies a req = false
  \/ authenticated a req.
Proof.
  destruct (@beforeAuthentication Handler req) as [t|] eqn:E; [left; eauto|].
  destruct (signatureVerifies a req) eqn:S; [|right; left; reflexivity].
  right; right. split; [apply beforeAuthentication_None; exact E|exact S].
Qed.

(** [appInstall], outcome by outcome. *)
Lemma appInstall_outcome req a :
  appInstall w req a
  = let post :=
      HttpPost accessURL formContentType (url.Encode (installForm a req)) in
    match platformAnswer w a req with
    | Fail _ =>
        finished a
          (post :: reply StatusInternalServerError
                     "Unable to authorize Slack App for workspace")
    | Done respBody =>
        match json_Decode w respBody with
        | Fail _ =>
            finished a
              (post :: reply StatusInternalServerError
                 "Unable to get Slack OAuth2 Access Response for workspace")
        | Done r =>
            if SlackOauth2Response.Ok r then
              match distCB a with
              | Some cb =>
                  finished (AddToken a (installedToken r))
                    (post :: CallDistCB r req
                     :: (if cb r req then [] else successPage w a))
              | None => finished a (post :: successPage w a)
              end
            else
              finished a
                (post :: reply StatusInternalServerError
                           "Slack App Access Request is not Ok")
        end
    end.
Proof.
  unfold appInstall, platformAnswer. unfold bind, receiver. simpl.
  destruct (http_Post w _ _ _) as [respBody|e]; simpl;
    [|rewrite Response_plain; reflexivity].
  destruct (json_Decode w respBody) as [r|e]; simpl;
    [|rewrite Response_plain; reflexivity].
  destruct (SlackOauth2Response.Ok r); simpl;
    [|rewrite Response_plain; reflexivity].
  destruct (distCB a) as [cb|]; simpl.
  - destruct (cb r req); simpl; [reflexivity|].
    rewrite Response_one_header. reflexivity.
  - rewrite Response_one_header. reflexivity.
Qed.

End Stages.

(** ** Authentication *)

(** C1, as the claim states it, fails: a request without a signature whose
    body is not a well-formed form is answered 400 by both dispatchers, as
    the form is parsed before the signature is looked at. *)
Lemma unsigned_broken_form_is_answered_400 :
  signatureVerifies Demo.app Demo.brokenForm = false
  /\ statusWritten (trace (interactions Demo.world Demo.brokenForm Demo.app))
     = [StatusBadRequest]
  /\ bodyWritten (trace (interactions Demo.world Demo.brokenForm Demo.app))
     = ["Invalid Form Body"]
  /\ statusWritten (trace (commands Demo.brokenForm Demo.app))
     = [StatusBadRequest]
  /\ bodyWritten (trace (commands Demo.brokenForm Demo.app))
     = ["Invalid Form Body"]
  /\ StatusBadRequest <> StatusUnauthorized.
Proof. vm_compute. repeat split. discriminate. Qed.

(** C1, amended: a request to either dispatcher whose signature does not
    verify invokes no handler and leaves the application as it was; it is
    answered 401 Unauthorized when its body was read to the end and is a
    well-formed form. Reading the body and parsing the form come before
    the signature check: a body that cannot be read is answered 400
    Invalid Body and a body that is not a form 400 Invalid Form Body. *)
Theorem unverified_request_rejected {Handler : Type} (w : World)
  (a : SlackApp Handler) (req : Request) :
  signatureVerifies a req = false ->
  let answer :=
    default (reply StatusUnauthorized "Unauthorized") (beforeAuthentication req) in
  interactions w req a = finished a answer
  /\ commands req a = finished a answer
  /\ handlersCalled answer = []
  /\ (wellFormed req -> answer = reply StatusUnauthorized "Unauthorized")
  /\ (snd (ReadAll (Body req)) <> None ->
      answer = reply StatusBadRequest "Invalid Body")
  /\ (snd (ReadAll (Body req)) = None ->
      snd (url.ParseQuery (bodyOf req)) <> None ->
      answer = reply StatusBadRequest "Invalid Form Body").
Proof.
  intros Hsig answer.
  split; [apply interactions_unverified; exact Hsig|].
  split; [apply commands_unverified; exact Hsig|].
  subst answer. unfold beforeAuthentication, wellFormed.
  destruct (snd (ReadAll (Body req))) as [e|].
  - repeat split; try reflexivity.
    + intros [H _]. discriminate.
    + intros H. discriminate.
  - destruct (snd (url.ParseQuery (bodyOf req))) as [e|].
    + repeat split; try reflexivity.
      * intros [_ H]. discriminate.
      * intros H. contradiction.
    + repeat split; try reflexivity.
      * intros H. contradiction.
      * intros _ H. contradiction.
Qed.

Lemma demo_pingUnsigned_unverified :
  signatureVerifies Demo.app Demo.pingUnsigned = false.
Proof. vm_compute. reflexivity. Defined.

Lemma unverified_request_rejected_witness :
  trace (interactions Demo.world Demo.pingUnsigned Demo.app)
  = reply StatusUnauthorized "Unauthorized"
  /\ trace (commands Demo.pingUnsigned Demo.app)
     = reply StatusUnauthorized "Unauthorized".
Proof.
  destruct (unverified_request_rejected Demo.world Demo.app Demo.pingUnsigned
              demo_pingUnsigned_unverified) as (Hi & Hc & _).
  rewrite Hi, Hc. vm_compute. split; reflexivity.
Defined.

(** ** Tenant resolution *)

(** A request that names a team without token is answered 400 App not
    installed for workspace, after a log line, and no handler is invoked:
    by [commands] for the form field [team_id], absent or not, by
    [interactions] for the team the decoded event carries, whatever the
    type of the event. *)
Theorem unknown_workspace_rejected {Handler : Type} (w : World)
  (a : SlackApp Handler) (req : Request) :
  authenticated a req ->
  let answer :=
    Printf ("App not installed for workspace: "
            ++ url.Get (formOf req) "team_id" ++ newline)
    :: reply StatusBadRequest "App not installed for workspace" in
  (findTokenForWorkspace (Tokens (opts a)) (url.Get (formOf req) "team_id")
   = None ->
   commands req a = finished a answer)
  /\ (forall event team,
        json_Unmarshal w (url.Get (formOf req) "payload") = Done event ->
        SlackInteractionEvent.Team event = Some team ->
        findTokenForWorkspace (Tokens (opts a)) (SlackInteractionTeam.ID team)
        = None ->
        interactions w req a = finished a answer)
  /\ handlersCalled answer = []
  /\ statusWritten answer = [StatusBadRequest]
  /\ bodyWritten answer = ["App not installed for workspace"].
Proof.
  intros Hauth answer. split; [|split].
  - intros Hnone. rewrite commands_authenticated by exact Hauth.
    rewrite Hnone. reflexivity.
  - intros event team Hjson Hteam Hnone.
    rewrite (interactions_authenticated w) by exact Hauth.
    rewrite Hjson, Hteam, Hnone. reflexivity.
  - repeat split.
Qed.

Lemma demo_authenticated_pingFromStranger :
  authenticated Demo.app Demo.pingFromStranger.
Proof. split; [split|]; vm_compute; reflexivity. Defined.

Lemma demo_authenticated_shortcutFromStranger :
  authenticated Demo.app Demo.shortcutFromStranger.
Proof. split; [split|]; vm_compute; reflexivity. Defined.

Lemma unknown_workspace_rejected_witness :
  statusWritten (trace (commands Demo.pingFromStranger Demo.app))
  = [StatusBadRequest]
  /\ bodyWritten (trace (interactions Demo.world Demo.shortcutFromStranger Demo.app))
     = ["App not installed for workspace"].
Proof.
  destruct (unknown_workspace_rejected Demo.world Demo.app
              Demo.pingFromStranger demo_authenticated_pingFromStranger)
    as (Hc & _).
  destruct (unknown_workspace_rejected Demo.world Demo.app
              Demo.shortcutFromStranger demo_authenticated_shortcutFromStranger)
    as (_ & Hi & _).
  rewrite Hc by (vm_compute; reflexivity).
  rewrite (Hi (Demo.event "shortcut" "T2" "open" [])
              {| SlackInteractionTeam.ID := "T2";
                 SlackInteractionTeam.Domain := "" |})
    by (vm_compute; reflexivity).
  split; reflexivity.
Defined.

(** An event need not carry a team: [Team] is a pointer, which
    encoding/json leaves nil when the payload has no [team] field. *)
Lemma cases_authenticated_noTeam : authenticated Demo.app Cases.noTeam.
Proof. split; [split|]; vm_compute; reflexivity. Defined.

Lemma cases_noTeam_decoded :
  json_Unmarshal Cases.world (url.Get (formOf Cases.noTeam) "payload")
  = Done (Cases.event "shortcut" None "open" None).
Proof. vm_compute. reflexivity. Defined.

Lemma cases_noTeam_unregistered :
  findTokenForWorkspace (Tokens (opts Demo.app))
    (url.Get (formOf Cases.noTeam) "team_id") = None.
Proof. vm_compute. reflexivity. Defined.

(** C4, on the code: an authenticated request whose payload decodes to an
    event without team is not answered 400 App not installed for
    workspace. [interactions] reads [event.Team.ID] (line 212) through the
    nil pointer and panics: it returns nothing, has written no status and
    no body, and has not looked the registry up. [commands], given the
    same request, reads the absent [team_id] as the empty string and,
    when that has no token, answers 400 App not installed for
    workspace. *)
Theorem event_without_team_panics {Handler : Type} (w : World)
  (a : SlackApp Handler) (req : Request) (event : SlackInteractionEvent.t) :
  authenticated a req ->
  json_Unmarshal w (url.Get (formOf req) "payload") = Done event ->
  SlackInteractionEvent.Team event = None ->
  interactions w req a = panicked a []
  /\ value (interactions w req a) = None
  /\ statusWritten (trace (interactions w req a)) = []
  /\ bodyWritten (trace (interactions w req a)) = []
  /\ (findTokenForWorkspace (Tokens (opts a)) (url.Get (formOf req) "team_id")
      = None ->
      value (commands req a) = Some tt
      /\ statusWritten (trace (commands req a)) = [StatusBadRequest]
      /\ bodyWritten (trace (commands req a))
         = ["App not installed for workspace"]).
Proof.
  intros Hauth Hjson Hteam.
  rewrite (interactions_authenticated w) by exact Hauth.
  rewrite Hjson, Hteam.
  split; [reflexivity|]. split; [reflexivity|].
  split; [reflexivity|]. split; [reflexivity|].
  intros Hnone. rewrite commands_authenticated by exact Hauth.
  rewrite Hnone. repeat split.
Qed.

Lemma event_without_team_panics_witness :
  value (interactions Cases.world Cases.noTeam Demo.app) = None
  /\ statusWritten (trace (interactions Cases.world Cases.noTeam Demo.app)) = []
  /\ bodyWritten (trace (interactions Cases.world Cases.noTeam Demo.app)) = []
  /\ bodyWritten (trace (commands Cases.noTeam Demo.app))
     = ["App not installed for workspace"].
Proof.
  destruct (event_without_team_panics Cases.world Demo.app Cases.noTeam
              (Cases.event "shortcut" None "open" None)
              cases_authenticated_noTeam cases_noTeam_decoded eq_refl)
    as (_ & Hvalue & Hstatus & Hbody & Hcommands).
  destruct (Hcommands cases_noTeam_unregistered) as (_ & _ & Hanswer).
  split; [exact Hvalue|]. split; [exact Hstatus|].
  split; [exact Hbody|exact Hanswer].
Defined.

(** ** Dispatch *)

Lemma routed_registered {Handler : Type} (a : SlackApp Handler) (c : category)
  (key : string) (ctx : SlackContext) (handler : Handler) :
  registry a c !! key = Some handler ->
  routed a c key ctx = [CallHandler handler ctx].
Proof. unfold routed. intros ->. reflexivity. Qed.

Lemma routed_unregistered {Handler : Type} (a : SlackApp Handler) (c : category)
  (key : string) (ctx : SlackContext) :
  registry a c !! key = None ->
  routed a c key ctx
  = Printf (logLine c ++ key ++ newline) :: reply StatusBadRequest (diagnostic c).
Proof. unfold routed. intros ->. reflexivity. Qed.

(** C5: an authenticated request whose team has a token is routed by its
    category and key. [commands] looks the form field [command] up in the
    command registry; [interactions] looks the key of the event up in the
    registry of its type. The handler found there is the one call made;
    without one the answer is 400 with the diagnostic of the category and
    no call; an event of any other type is answered 400 Unrecognized
    interaction type. *)
Theorem dispatch_by_category_and_key {Handler : Type} (w : World)
  (a : SlackApp Handler) (req : Request) (tok : SlackAuthToken) :
  authenticated a req ->
  let ctx := handlerContext req tok in
  (findTokenForWorkspace (Tokens (opts a)) (url.Get (formOf req) "team_id")
   = Some tok ->
   commands req a
   = finished a (routed a SlashCommand (url.Get (formOf req) "command") ctx))
  /\ (forall event team,
        json_Unmarshal w (url.Get (formOf req) "payload") = Done event ->
        SlackInteractionEvent.Team event = Some team ->
        findTokenForWorkspace (Tokens (opts a)) (SlackInteractionTeam.ID team)
        = Some tok ->
        match categoryOf (SlackInteractionEvent.Type_ event) with
        | Some c =>
            forall key, keyOf event c = Some key ->
              interactions w req a = finished a (routed a c key ctx)
        | None =>
            interactions w req a
            = finished a (reply StatusBadRequest "Unrecognized interaction type")
        end)
  /\ (forall c key handler,
        registry a c !! key = Some handler ->
        routed a c key ctx = [CallHandler handler ctx]
        /\ handlersCalled (routed a c key ctx) = [handler]
        /\ statusWritten (routed a c key ctx) = [])
  /\ (forall c key,
        registry a c !! key = None ->
        handlersCalled (routed a c key ctx) = []
        /\ statusWritten (routed a c key ctx) = [StatusBadRequest]
        /\ bodyWritten (routed a c key ctx) = [diagnostic c]).
Proof.
  intros Hauth ctx. split; [|split; [|split]].
  - intros Hfind. rewrite commands_authenticated by exact Hauth.
    rewrite Hfind. reflexivity.
  - intros event team Hjson Hteam Hfind.
    pose proof (interactions_authenticated w req a Hauth) as Hrun.
    rewrite Hjson, Hteam, Hfind, dispatchEvent_routed in Hrun.
    destruct (categoryOf _) as [c|]; [|exact Hrun].
    intros key Hkey. rewrite Hkey in Hrun. exact Hrun.
  - intros c key handler Hreg.
    rewrite (routed_registered a c key ctx handler Hreg). repeat split.
  - intros c key Hreg.
    rewrite (routed_unregistered a c key ctx Hreg). repeat split.
Qed.

Lemma demo_authenticated_ping : authenticated Demo.app Demo.ping.
Proof. split; [split|]; vm_compute; reflexivity. Defined.

Lemma demo_authenticated_click : authenticated Demo.app Demo.click.
Proof. split; [split|]; vm_compute; reflexivity. Defined.

Lemma dispatch_by_category_and_key_witness :
  handlersCalled (trace (commands Demo.ping Demo.app)) = ["onPing"]
  /\ handlersCalled (trace (interactions Demo.world Demo.click Demo.app))
     = ["onClick"].
Proof.
  destruct (dispatch_by_category_and_key Demo.world Demo.app Demo.ping
              {| Workspace := "T1"; Token := "xoxb-T1" |}
              demo_authenticated_ping) as (Hc & _).
  destruct (dispatch_by_category_and_key Demo.world Demo.app Demo.click
              {| Workspace := "T1"; Token := "xoxb-T1" |}
              demo_authenticated_click) as (_ & Hi & _).
  rewrite Hc by (vm_compute; reflexivity).
  specialize (Hi (Demo.event "block_actions" "T1" "" [Demo.action "clicked_me"])
                 {| SlackInteractionTeam.ID := "T1";
                    SlackInteractionTeam.Domain := "" |}).
  cbv beta iota delta [categoryOf Demo.event SlackInteractionEvent.Type_] in Hi.
  change (String.eqb "block_actions" "shortcut") with false in Hi.
  change (String.eqb "block_actions" "block_actions") with true in Hi.
  cbv iota in Hi.
  rewrite (fun H1 H2 H3 => Hi H1 H2 H3 "clicked_me" eq_refl)
    by (vm_compute; reflexivity).
  vm_compute. split; reflexivity.
Defined.

(** ** The first action of a [block_actions] event *)

Lemma block_actions_category (event : SlackInteractionEvent.t) :
  SlackInteractionEvent.Type_ event = "block_actions" ->
  categoryOf (SlackInteractionEvent.Type_ event) = Some BlockActions.
Proof. intros ->. reflexivity. Qed.

Lemma interactions_block_actions {Handler : Type} (w : World)
  (a : SlackApp Handler) (req : Request) (tok : SlackAuthToken)
  (event : SlackInteractionEvent.t) (team : SlackInteractionTeam.t) :
  authenticated a req ->
  json_Unmarshal w (url.Get (formOf req) "payload") = Done event ->
  SlackInteractionEvent.Type_ event = "block_actions" ->
  SlackInteractionEvent.Team event = Some team ->
  findTokenForWorkspace (Tokens (opts a)) (SlackInteractionTeam.ID team)
  = Some tok ->
  interactions w req a
  = match SlackInteractionEvent.Actions event with
    | [] => panicked a []
    | first :: _ =>
        finished a
          (routed a BlockActions (SlackInteractionAction.ActionID first)
             (handlerContext req tok))
    end.
Proof.
  intros Hauth Hjson Htype Hteam Hfind.
  rewrite (interactions_authenticated w) by exact Hauth.
  rewrite Hjson, Hteam, Hfind, dispatchEvent_routed.
  rewrite (block_actions_category event Htype). unfold keyOf.
  destruct (SlackInteractionEvent.Actions event); reflexivity.
Qed.

(** C7, on the code: an authenticated [block_actions] event of a known team
    whose [actions] is empty makes [interactions] panic on [Actions[0]];
    nothing is written, no 400 in particular, and no handler is called. *)
Theorem block_actions_without_action_panics {Handler : Type} (w : World)
  (a : SlackApp Handler) (req : Request) (tok : SlackAuthToken)
  (event : SlackInteractionEvent.t) (team : SlackInteractionTeam.t) :
  authenticated a req ->
  json_Unmarshal w (url.Get (formOf req) "payload") = Done event ->
  SlackInteractionEvent.Type_ event = "block_actions" ->
  SlackInteractionEvent.Team event = Some team ->
  findTokenForWorkspace (Tokens (opts a)) (SlackInteractionTeam.ID team)
  = Some tok ->
  SlackInteractionEvent.Actions event = [] ->
  value (interactions w req a) = None
  /\ trace (interactions w req a) = []
  /\ statusWritten (trace (interactions w req a)) = [].
Proof.
  intros Hauth Hjson Htype Hteam Hfind Hactions.
  rewrite (interactions_block_actions w a req tok event team) by assumption.
  rewrite Hactions. repeat split.
Qed.

Lemma demo_authenticated_noAction : authenticated Demo.app Demo.noAction.
Proof. split; [split|]; vm_compute; reflexivity. Defined.

Lemma block_actions_without_action_panics_witness :
  value (interactions Demo.world Demo.noAction Demo.app) = None
  /\ trace (interactions Demo.world Demo.noAction Demo.app) = []
  /\ statusWritten (trace (interactions Demo.world Demo.noAction Demo.app)) = [].
Proof.
  apply (block_actions_without_action_panics Demo.world Demo.app Demo.noAction
           {| Workspace := "T1"; Token := "xoxb-T1" |}
           (Demo.event "block_actions" "T1" "" [])
           {| SlackInteractionTeam.ID := "T1"; SlackInteractionTeam.Domain := "" |}
           demo_authenticated_noAction);
    vm_compute; reflexivity.
Defined.

(** C8: for an authenticated [block_actions] event of a known team whose
    [actions] is not empty, [interactions] looks only the [action_id] of
    the first action up: it calls the handler registered under it, or
    answers 400 Unrecognized action action_id. A second such request whose
    first action has the same [action_id] calls the same handler and gets
    the same answer, whatever the other actions of the two are. *)
Theorem block_actions_first_action_only {Handler : Type} (w : World)
  (a : SlackApp Handler) (req : Request) (tok : SlackAuthToken)
  (event : SlackInteractionEvent.t) (team : SlackInteractionTeam.t)
  (first : SlackInteractionAction.t) (rest : list SlackInteractionAction.t) :
  authenticated a req ->
  json_Unmarshal w (url.Get (formOf req) "payload") = Done event ->
  SlackInteractionEvent.Type_ event = "block_actions" ->
  SlackInteractionEvent.Team event = Some team ->
  findTokenForWorkspace (Tokens (opts a)) (SlackInteractionTeam.ID team)
  = Some tok ->
  SlackInteractionEvent.Actions event = first :: rest ->
  interactions w req a
  = finished a
      (match actionListeners a !! SlackInteractionAction.ActionID first with
       | Some handler => [CallHandler handler (handlerContext req tok)]
       | None =>
           Printf ("Unrecognized action: "
                   ++ SlackInteractionAction.ActionID first ++ newline)
           :: reply StatusBadRequest "Unrecognized action action_id"
       end)
  /\ (forall req' tok' event' team' first' rest',
        authenticated a req' ->
        json_Unmarshal w (url.Get (formOf req') "payload") = Done event' ->
        SlackInteractionEvent.Type_ event' = "block_actions" ->
        SlackInteractionEvent.Team event' = Some team' ->
        findTokenForWorkspace (Tokens (opts a)) (SlackInteractionTeam.ID team')
        = Some tok' ->
        SlackInteractionEvent.Actions event' = first' :: rest' ->
        SlackInteractionAction.ActionID first'
        = SlackInteractionAction.ActionID first ->
        handlersCalled (trace (interactions w req' a))
        = handlersCalled (trace (interactions w req a))
        /\ statusWritten (trace (interactions w req' a))
           = statusWritten (trace (interactions w req a))
        /\ bodyWritten (trace (interactions w req' a))
           = bodyWritten (trace (interactions w req a))).
Proof.
  intros Hauth Hjson Htype Hteam Hfind Hactions.
  assert (Hrun : forall req0 tok0 event0 team0 first0 rest0,
    authenticated a req0 ->
    json_Unmarshal w (url.Get (formOf req0) "payload") = Done event0 ->
    SlackInteractionEvent.Type_ event0 = "block_actions" ->
    SlackInteractionEvent.Team event0 = Some team0 ->
    findTokenForWorkspace (Tokens (opts a)) (SlackInteractionTeam.ID team0)
    = Some tok0 ->
    SlackInteractionEvent.Actions event0 = first0 :: rest0 ->
    interactions w req0 a
    = finished a
        (routed a BlockActions (SlackInteractionAction.ActionID first0)
           (handlerContext req0 tok0))).
  { intros req0 tok0 event0 team0 first0 rest0 H1 H2 H3 H4 H5 H6.
    rewrite (interactions_block_actions w a req0 tok0 event0 team0)
      by assumption.
    rewrite H6. reflexivity. }
  split.
  - rewrite (Hrun req tok event team first rest) by assumption. reflexivity.
  - intros req' tok' event' team' first' rest' H1 H2 H3 H4 H5 H6 Hsame.
    rewrite (Hrun req tok event team first rest) by assumption.
    rewrite (Hrun req' tok' event' team' first' rest') by assumption.
    rewrite Hsame. unfold routed. simpl.
    destruct (actionListeners a !! _); repeat split.
Qed.

Lemma demo_authenticated_twoActions : authenticated Demo.app Demo.twoActions.
Proof. split; [split|]; vm_compute; reflexivity. Defined.

Lemma block_actions_first_action_only_witness :
  handlersCalled (trace (interactions Demo.world Demo.twoActions Demo.app))
  = ["onClick"]
  /\ handlersCalled (trace (interactions Demo.world Demo.click Demo.app))
     = handlersCalled (trace (interactions Demo.world Demo.twoActions Demo.app)).
Proof.
  destruct (block_actions_first_action_only Demo.world Demo.app Demo.twoActions
              {| Workspace := "T1"; Token := "xoxb-T1" |}
              (Demo.event "block_actions" "T1" ""
                 [Demo.action "clicked_me"; Demo.action "other"])
              {| SlackInteractionTeam.ID := "T1"; SlackInteractionTeam.Domain := "" |}
              (Demo.action "clicked_me") [Demo.action "other"]
              demo_authenticated_twoActions)
    as (Hrun & Hsame); try (vm_compute; reflexivity).
  split.
  - rewrite Hrun. vm_compute. reflexivity.
  - refine (proj1 (Hsame Demo.click {| Workspace := "T1"; Token := "xoxb-T1" |}
                     (Demo.event "block_actions" "T1" "" [Demo.action "clicked_me"])
                     {| SlackInteractionTeam.ID := "T1";
                        SlackInteractionTeam.Domain := "" |}
                     (Demo.action "clicked_me") [] demo_authenticated_click
                     _ _ _ _ _ _));
      vm_compute; reflexivity.
Defined.

(** ** The second nil test of [commands] *)

(** C10: [commands] never writes Unrecognized workspace. The test that
    guards that answer is reached only when the same test on the same
    pointer has just failed, so for every request the run returns with one
    of the other answers or with the call of a handler. *)
Theorem unrecognized_workspace_unreachable {Handler : Type}
  (a : SlackApp Handler) (req : Request) :
  Forall (fun e => e <> Write "Unrecognized workspace") (trace (commands req a))
  /\ Forall (fun m => m <> "Unrecognized workspace")
       (bodyWritten (trace (commands req a)))
  /\ value (commands req a) = Some tt.
Proof.
  destruct (request_cases req a) as [[t Ht]|[Hsig|Hauth]].
  - rewrite (commands_malformed req a t Ht).
    unfold beforeAuthentication in Ht.
    destruct (snd (ReadAll (Body req))).
    + injection Ht as <-. simpl.
      repeat split; repeat constructor; discriminate.
    + destruct (snd (url.ParseQuery (bodyOf req))); [|discriminate].
      injection Ht as <-. simpl.
      repeat split; repeat constructor; discriminate.
  - rewrite (commands_unverified req a Hsig).
    unfold beforeAuthentication.
    destruct (snd (ReadAll (Body req)));
      [|destruct (snd (url.ParseQuery (bodyOf req)))];
      simpl; repeat split; repeat constructor; discriminate.
  - rewrite (commands_authenticated req a Hauth).
    destruct (findTokenForWorkspace _ _) as [tok|]; simpl.
    + unfold routed. simpl. destruct (cmds a !! _); simpl;
        repeat split; repeat constructor; discriminate.
    + repeat split; repeat constructor; discriminate.
Qed.

(** ** The install exchange *)

(** C2, as the claim states it, fails twice. A granted exchange for team
    T1, which has a token already, adds the granted token behind the
    earlier one, and [find] of T1 still yields the earlier one. And with no
    install callback set, a granted exchange for team T9 writes the success
    page and registers no token, so T9 stays unknown. *)
Lemma granted_install_need_not_resolve_to_granted_token :
  let again :=
    appInstall Reinstall.world (Demo.installRequest "again")
      Demo.appWithCallback in
  let bare := appInstall Demo.world (Demo.installRequest "good") Demo.app in
  (platformAnswer Reinstall.world Demo.appWithCallback
     (Demo.installRequest "again") = Done Reinstall.grantedJSON
   /\ json_Decode Reinstall.world Reinstall.grantedJSON
      = Done (Demo.oauth true "xoxb-new" "T1")
   /\ is_nil (distCB Demo.appWithCallback) = false
   /\ statusWritten (trace again) = [StatusOK]
   /\ Tokens (opts (final again))
      = [ {| Workspace := "T1"; Token := "xoxb-T1" |};
          {| Workspace := "T1"; Token := "xoxb-new" |} ]
   /\ option_map Token (findTokenForWorkspace (Tokens (opts (final again))) "T1")
      = Some "xoxb-T1"
   /\ "xoxb-T1" <> "xoxb-new")
  /\ (platformAnswer Demo.world Demo.app (Demo.installRequest "good")
      = Done Demo.grantedJSON
      /\ json_Decode Demo.world Demo.grantedJSON
         = Done (Demo.oauth true "tok" "T9")
      /\ is_nil (distCB Demo.app) = true
      /\ statusWritten (trace bare) = [StatusOK]
      /\ Tokens (opts (final bare)) = Tokens (opts Demo.app)
      /\ findTokenForWorkspace (Tokens (opts (final bare))) "T9" = None).
Proof.
  split.
  - vm_compute. repeat split. discriminate.
  - vm_compute. repeat split.
Qed.

(** C2, amended: when the decoded answer of the exchange has [ok] true,
    team id T and access token tok, and an install callback is set,
    [appInstall] returns with the token {T, tok} registered by [AddToken],
    behind the tokens there were. A later [find] of T yields tok when T had
    no token before, and the earlier token of T otherwise. The callback is
    called once, and the success page is written, with status 200, unless
    the callback returns true; then nothing is written. *)
Theorem install_granted {Handler : Type} (w : World) (a : SlackApp Handler)
  (req : Request) (respBody : string) (r : SlackOauth2Response.t)
  (cb : SlackOauth2Response.t -> Request -> bool) :
  platformAnswer w a req = Done respBody ->
  json_Decode w respBody = Done r ->
  SlackOauth2Response.Ok r = true ->
  distCB a = Some cb ->
  let T := SlackOauth2Team.ID (SlackOauth2Response.Team r) in
  let tok := SlackOauth2Response.AccessToken r in
  let post :=
    HttpPost accessURL formContentType (url.Encode (installForm a req)) in
  let page :=
    strings.ReplaceAll (INSTALLSUCCESSPAGE w) "{{APP_NAME}}" (Name (opts a)) in
  appInstall w req a
  = finished (AddToken a {| Workspace := T; Token := tok |})
      (post :: CallDistCB r req :: (if cb r req then [] else successPage w a))
  /\ Tokens (opts (final (appInstall w req a)))
     = (Tokens (opts a) ++ [ {| Workspace := T; Token := tok |} ])%list
  /\ findTokenForWorkspace (Tokens (opts (final (appInstall w req a)))) T
     = match findTokenForWorkspace (Tokens (opts a)) T with
       | Some earlier => Some earlier
       | None => Some {| Workspace := T; Token := tok |}
       end
  /\ (cb r req = false ->
      statusWritten (trace (appInstall w req a)) = [StatusOK]
      /\ bodyWritten (trace (appInstall w req a)) = [page])
  /\ (cb r req = true ->
      statusWritten (trace (appInstall w req a)) = []
      /\ bodyWritten (trace (appInstall w req a)) = []).
Proof.
  intros Hpost Hjson Hok Hcb T tok post page.
  pose proof (appInstall_outcome w req a) as Hrun.
  cbv zeta in Hrun. rewrite Hpost, Hjson, Hok, Hcb in Hrun.
  rewrite Hrun. split; [reflexivity|]. split; [reflexivity|]. split.
  - simpl final. rewrite find_AddToken.
    destruct (findTokenForWorkspace (Tokens (opts a)) T); [reflexivity|].
    simpl. subst T. rewrite String.eqb_refl. reflexivity.
  - split; intros ->; split; reflexivity.
Qed.

Lemma demo_good_granted :
  platformAnswer Demo.world Demo.appWithCallback (Demo.installRequest "good")
  = Done Demo.grantedJSON.
Proof. vm_compute. reflexivity. Defined.

Lemma demo_granted_decoded :
  json_Decode Demo.world Demo.grantedJSON = Done (Demo.oauth true "tok" "T9").
Proof. vm_compute. reflexivity. Defined.

Lemma install_granted_witness :
  Tokens (opts (final (appInstall Demo.world (Demo.installRequest "good")
                         Demo.appWithCallback)))
  = [ {| Workspace := "T1"; Token := "xoxb-T1" |};
      {| Workspace := "T9"; Token := "tok" |} ]
  /\ findTokenForWorkspace
       (Tokens (opts (final (appInstall Demo.world (Demo.installRequest "good")
                               Demo.appWithCallback)))) "T9"
     = Some {| Workspace := "T9"; Token := "tok" |}
  /\ statusWritten (trace (appInstall Demo.world (Demo.installRequest "good")
                             Demo.appWithCallback))
     = [StatusOK].
Proof.
  destruct (install_granted Demo.world Demo.appWithCallback
              (Demo.installRequest "good") Demo.grantedJSON
              (Demo.oauth true "tok" "T9") (fun _ _ => false)
              demo_good_granted demo_granted_decoded eq_refl eq_refl)
    as (_ & Htokens & Hfind & Hpage & _).
  split; [rewrite Htokens; reflexivity|].
  split; [exact Hfind|].
  exact (proj1 (Hpage eq_refl)).
Defined.

(** ** Rejections leave the application as it was *)

Lemma interactions_final {Handler : Type} (w : World) (a : SlackApp Handler)
  (req : Request) :
  final (interactions w req a) = a.
Proof.
  destruct (request_cases req a) as [[t Ht]|[Hsig|Hauth]].
  - rewrite (interactions_malformed w req a t Ht). reflexivity.
  - rewrite (interactions_unverified w req a Hsig). reflexivity.
  - rewrite (interactions_authenticated w req a Hauth).
    destruct (json_Unmarshal w _) as [event|e]; [|reflexivity].
    destruct (SlackInteractionEvent.Team event) as [team|]; [|reflexivity].
    destruct (findTokenForWorkspace _ _) as [tok|]; [|reflexivity].
    rewrite dispatchEvent_routed.
    destruct (categoryOf _) as [c|]; [|reflexivity].
    destruct (keyOf event c); reflexivity.
Qed.

Lemma commands_final {Handler : Type} (a : SlackApp Handler) (req : Request) :
  final (commands req a) = a.
Proof.
  destruct (request_cases req a) as [[t Ht]|[Hsig|Hauth]].
  - rewrite (commands_malformed req a t Ht). reflexivity.
  - rewrite (commands_unverified req a Hsig). reflexivity.
  - rewrite (commands_authenticated req a Hauth).
    destruct (findTokenForWorkspace _ _); reflexivity.
Qed.

(** The success page is no rejection. *)
Lemma successPage_not_rejected {Handler : Type} (w : World)
  (a : SlackApp Handler) (before : list (effect Handler)) :
  statusWritten before = [] ->
  ~ rejected (before ++ successPage w a)%list.
Proof.
  intros Hbefore. unfold rejected, statusWritten in *.
  rewrite flat_map_app, Hbefore. simpl.
  intros H. inversion H as [c l [E|[E|E]]|c l H']; subst; try discriminate.
  inversion H'.
Qed.

(** C9: a request that ends in a rejection (a status 400, 401 or 500
    written by the handler that serves it) leaves the application, its
    tokens and its five registries, as it was. That holds for
    [interactions], for [commands] and for [appInstall]; in particular an
    install exchange whose POST fails, whose answer does not decode or
    whose answer has [ok] false answers 500 and adds no token. *)
Theorem rejection_leaves_application_unchanged {Handler : Type} (w : World)
  (a : SlackApp Handler) (req : Request) :
  (rejected (trace (interactions w req a)) -> final (interactions w req a) = a)
  /\ (rejected (trace (commands req a)) -> final (commands req a) = a)
  /\ (rejected (trace (appInstall w req a)) -> final (appInstall w req a) = a)
  /\ (forall e, platformAnswer w a req = Fail e ->
        statusWritten (trace (appInstall w req a)) = [StatusInternalServerError]
        /\ final (appInstall w req a) = a)
  /\ (forall respBody e,
        platformAnswer w a req = Done respBody ->
        json_Decode w respBody = Fail e ->
        statusWritten (trace (appInstall w req a)) = [StatusInternalServerError]
        /\ final (appInstall w req a) = a)
  /\ (forall respBody r,
        platformAnswer w a req = Done respBody ->
        json_Decode w respBody = Done r ->
        SlackOauth2Response.Ok r = false ->
        statusWritten (trace (appInstall w req a)) = [StatusInternalServerError]
        /\ final (appInstall w req a) = a).
Proof.
  pose proof (appInstall_outcome w req a) as Hrun. cbv zeta in Hrun.
  split; [intros _; apply interactions_final|].
  split; [intros _; apply commands_final|].
  split; [|split; [|split]].
  - rewrite Hrun.
    destruct (platformAnswer w a req) as [respBody|e]; [|reflexivity].
    destruct (json_Decode w respBody) as [r|e]; [|reflexivity].
    destruct (SlackOauth2Response.Ok r); [|reflexivity].
    destruct (distCB a) as [cb|]; [|reflexivity].
    intros Hrej. exfalso. simpl in Hrej.
    destruct (cb r req).
    + unfold rejected in Hrej. simpl in Hrej. inversion Hrej.
    + revert Hrej.
      apply (successPage_not_rejected w a
               [HttpPost accessURL formContentType (url.Encode (installForm a req));
                CallDistCB r req]).
      reflexivity.
  - intros e Hpost. rewrite Hrun, Hpost. split; reflexivity.
  - intros respBody e Hpost Hjson. rewrite Hrun, Hpost, Hjson.
    split; reflexivity.
  - intros respBody r Hpost Hjson Hok. rewrite Hrun, Hpost, Hjson, Hok.
    split; reflexivity.
Qed.

Lemma rejection_leaves_application_unchanged_witness :
  statusWritten (trace (appInstall Demo.world (Demo.installRequest "denied")
                          Demo.appWithCallback))
  = [StatusInternalServerError]
  /\ final (appInstall Demo.world (Demo.installRequest "denied")
              Demo.appWithCallback)
     = Demo.appWithCallback.
Proof.
  destruct (rejection_leaves_application_unchanged Demo.world
              Demo.appWithCallback (Demo.installRequest "denied"))
    as (_ & _ & _ & _ & _ & Hdenied).
  apply (Hdenied Demo.deniedJSON (Demo.oauth false "" ""));
    vm_compute; reflexivity.
Defined.

(** ** Scenarios of the specification, run on the sample application *)

(** The reference signature verifies. *)
Lemma reference_signature_verifies {Handler : Type} (a : SlackApp Handler)
  (ts body : string) :
  checkSlackSecret a (referenceSignature (SigningSecret (opts a)) ts body) ts body
  = true.
Proof. rewrite checkSlackSecret_reference. apply String.eqb_refl. Qed.

(** A signed [/ping] of a known team reaches its handler with the token of
    the team. *)
Example scenario_ping :
  trace (commands Demo.ping Demo.app)
  = [CallHandler "onPing"
       {| ctxBody := "team_id=T1&command=%2Fping";
          ctxToken := "xoxb-T1";
          ctxReq := Some Demo.ping |}].
Proof. vm_compute. reflexivity. Qed.

(** The same command from a team without token. *)
Example scenario_ping_from_stranger :
  let r := commands Demo.pingFromStranger Demo.app in
  statusWritten (trace r) = [StatusBadRequest]
  /\ bodyWritten (trace r) = ["App not installed for workspace"]
  /\ handlersCalled (trace r) = [].
Proof. vm_compute. repeat split. Qed.

(** A click on [clicked_me] calls its handler once. *)
Example scenario_click :
  handlersCalled (trace (interactions Demo.world Demo.click Demo.app))
  = ["onClick"].
Proof. vm_compute. reflexivity. Qed.

(** Registering a command twice keeps the second handler only. *)
Lemma OnCommand_twice {Handler : Type} (a : SlackApp Handler) (cmd : string)
  (h1 h2 : Handler) :
  cmds (OnCommand (OnCommand a cmd h1) cmd h2) = cmds (OnCommand a cmd h2)
  /\ cmds (OnCommand (OnCommand a cmd h1) cmd h2) !! cmd = Some h2.
Proof.
  simpl. split; [apply insert_insert_eq|apply lookup_insert_eq].
Qed.

(** * Further properties of the code *)

(** ** The shape of an accepted signature *)

Lemma length_be_bytes (n : nat) (x : Z) : List.length (Sha256.be_bytes n x) = n.
Proof. induction n as [|n IH]; simpl; [reflexivity|]. rewrite IH. reflexivity. Qed.

Lemma length_block (h blk : list Z) :
  List.length h = 8%nat -> List.length (Sha256.block h blk) = 8%nat.
Proof.
  intros Hh. unfold Sha256.block.
  rewrite length_map, length_combine, Hh. reflexivity.
Qed.

Lemma length_blocks (n : nat) (h data : list Z) :
  List.length h = 8%nat -> List.length (Sha256.blocks n h data) = 8%nat.
Proof.
  revert h data. induction n as [|n IH]; intros h data Hh; simpl; [exact Hh|].
  apply IH. apply length_block. exact Hh.
Qed.

Lemma length_flat_map_be_bytes (h : list Z) :
  List.length (flat_map (Sha256.be_bytes 4) h) = (4 * List.length h)%nat.
Proof.
  induction h as [|x h IH]; [reflexivity|].
  change (flat_map (Sha256.be_bytes 4) (x :: h))
    with (Sha256.be_bytes 4 x ++ flat_map (Sha256.be_bytes 4) h)%list.
  rewrite length_app, length_be_bytes, IH. simpl. lia.
Qed.

(** A SHA-256 digest has 32 bytes, and so has an HMAC over it. *)
Lemma length_Sum256 (msg : list Z) : List.length (Sha256.Sum256 msg) = 32%nat.
Proof.
  unfold Sha256.Sum256. rewrite length_flat_map_be_bytes.
  rewrite length_blocks; reflexivity.
Qed.

Lemma length_Hmac_Sum (key msg : list Z) : List.length (Hmac.Sum key msg) = 32%nat.
Proof. unfold Hmac.Sum. apply length_Sum256. Qed.

Lemma append_assoc_string (x y z : string) : (x ++ y) ++ z = x ++ y ++ z.
Proof.
  induction x as [|c x IH]; [reflexivity|].
  change (String c ((x ++ y) ++ z) = String c (x ++ y ++ z)).
  rewrite IH. reflexivity.
Qed.

(** X1: a signature [checkSlackSecret] accepts is [v0=] followed by exactly
    64 digits of [0123456789abcdef], 67 bytes in all: a missing header, a
    different version prefix, upper-case digits or a truncated digest are
    never accepted, whatever the secret, the timestamp and the body. *)
Theorem accepted_signature_shape {Handler : Type} (a : SlackApp Handler)
  (signing ts body : string) :
  checkSlackSecret a signing ts body = true ->
  exists digits,
    signing = "v0=" ++ digits
    /\ String.length digits = 64%nat
    /\ String.length signing = 67%nat
    /\ Forall (fun c => In c (list_ascii_of_string "0123456789abcdef"))
         (list_ascii_of_string digits).
Proof.
  rewrite checkSlackSecret_reference. unfold referenceSignature.
  intros H. apply String.eqb_eq in H. subst signing.
  set (digest := Hmac.Sum _ _).
  assert (Hlen : String.length (Hex.EncodeToString digest) = 64%nat).
  { rewrite EncodeToString_length. unfold digest.
    rewrite length_Hmac_Sum. reflexivity. }
  exists (Hex.EncodeToString digest).
  split; [reflexivity|]. split; [exact Hlen|]. split.
  - change (S (S (S (String.length (Hex.EncodeToString digest)))) = 67%nat).
    rewrite Hlen. reflexivity.
  - apply EncodeToString_lowercase.
Qed.

Lemma demo_ping_signature_accepted :
  checkSlackSecret Demo.app
    "v0=0981216d4c08f15a5da6242ba1b3a73690a0dc32863c4354814406860e4655fe"
    "1000" "team_id=T1&command=%2Fping" = true.
Proof. vm_compute. reflexivity. Defined.

Lemma accepted_signature_shape_witness :
  exists digits,
    "v0=0981216d4c08f15a5da6242ba1b3a73690a0dc32863c4354814406860e4655fe"
    = "v0=" ++ digits
    /\ String.length digits = 64%nat
    /\ String.length
         "v0=0981216d4c08f15a5da6242ba1b3a73690a0dc32863c4354814406860e4655fe"
       = 67%nat
    /\ Forall (fun c => In c (list_ascii_of_string "0123456789abcdef"))
         (list_ascii_of_string digits).
Proof.
  exact (accepted_signature_shape Demo.app _ "1000" "team_id=T1&command=%2Fping"
           demo_ping_signature_accepted).
Defined.

(** X2: the signed text is the plain concatenation [v0:timestamp:body], so
    the check cannot tell where the timestamp ends: moving a piece that a
    colon delimits from the front of the body to the end of the timestamp
    leaves the verdict as it was. *)
Theorem signature_does_not_bind_the_split {Handler : Type}
  (a : SlackApp Handler) (signing ts piece body : string) :
  checkSlackSecret a signing (ts ++ ":" ++ piece) body
  = checkSlackSecret a signing ts (piece ++ ":" ++ body).
Proof.
  rewrite !checkSlackSecret_reference. unfold referenceSignature.
  rewrite !append_assoc_string. reflexivity.
Qed.

(** ** One outcome per request *)

Lemma categoryOf_event (type : string) (c : category) :
  categoryOf type = Some c ->
  (c = Shortcut /\ type = "shortcut")
  \/ (c = BlockActions /\ type = "block_actions")
  \/ (c = ViewSubmission /\ type = "view_submission")
  \/ (c = ViewClosed /\ type = "view_closed").
Proof.
  unfold categoryOf.
  destruct (String.eqb_spec type "shortcut");
    [intros [= <-]; tauto|].
  destruct (String.eqb_spec type "block_actions");
    [intros [= <-]; tauto|].
  destruct (String.eqb_spec type "view_submission");
    [intros [= <-]; tauto|].
  destruct (String.eqb_spec type "view_closed");
    [intros [= <-]; tauto|].
  discriminate.
Qed.






Lemma beforeAuthentication_oneOutcome {Handler : Type} (req : Request)
  (t : list (effect Handler)) :
  beforeAuthentication req = Some t ->
  t = reply StatusBadRequest "Invalid Body"
  \/ t = reply StatusBadRequest "Invalid Form Body".
Proof.
  unfold beforeAuthentication.
  destruct (snd (ReadAll (Body req))); [intros [= <-]; left; reflexivity|].
  destruct (snd (url.ParseQuery (bodyOf req))); [|discriminate].
  intros [= <-]. right. reflexivity.
Qed.


(** ** When [interactions] panics *)




(** ** Registration, then dispatch *)

Lemma registry_register {Handler : Type} (a : SlackApp Handler)
  (c c' : category) (key k : string) (handler : Handler) :
  registry (register c a key handler) c' !! k
  = if decide (c = c' /\ key = k) then Some handler else registry a c' !! k.
Proof.
  destruct (decide (c = c' /\ key = k)) as [[<- <-]|Hne].
  - destruct c; simpl; apply lookup_insert_eq.
  - destruct c, c'; simpl; try reflexivity;
      (destruct (decide (key = k)) as [<-|Hk];
       [exfalso; apply Hne; split; reflexivity
       |apply lookup_insert_ne; exact Hk]).
Qed.

Lemma opts_register {Handler : Type} (a : SlackApp Handler) (c : category)
  (key : string) (handler : Handler) :
  opts (register c a key handler) = opts a
  /\ distCB (register c a key handler) = distCB a.
Proof. destruct c; split; reflexivity. Qed.

Lemma authenticated_same_options {Handler : Type} (a a' : SlackApp Handler)
  (req : Request) :
  opts a' = opts a -> authenticated a req -> authenticated a' req.
Proof.
  intros Ho [Hwf Hsig]. split; [exact Hwf|].
  unfold signatureVerifies, checkSlackSecret in *. rewrite Ho. exact Hsig.
Qed.

Lemma routed_register {Handler : Type} (a : SlackApp Handler)
  (c c' : category) (key k : string) (handler : Handler) (ctx : SlackContext) :
  routed (register c a key handler) c' k ctx
  = if decide (c = c' /\ key = k) then [CallHandler handler ctx]
    else routed a c' k ctx.
Proof.
  unfold routed. rewrite registry_register.
  destruct (decide (c = c' /\ key = k)); reflexivity.
Qed.

(** X5: after a handler is registered under a key with the function of
    its category ([OnShortcut], [OnAction], [OnViewSubmission],
    [OnViewClose], [OnCommand]), an authenticated request of a known team
    that carries this category and key calls exactly that handler, also
    when another handler was registered there before; a request of any
    other category or key is served as before the registration, so a
    handler is never reached through a registry it was not put in. *)
Theorem registration_then_dispatch {Handler : Type} (w : World)
  (a : SlackApp Handler) (c : category) (key : string) (handler : Handler)
  (req : Request) (tok : SlackAuthToken) :
  authenticated a req ->
  let a' := register c a key handler in
  let ctx := handlerContext req tok in
  (findTokenForWorkspace (Tokens (opts a)) (url.Get (formOf req) "team_id")
   = Some tok ->
   trace (commands req a')
   = if decide (c = SlashCommand /\ key = url.Get (formOf req) "command")
     then [CallHandler handler ctx]
     else trace (commands req a))
  /\ (forall event team c' k,
        json_Unmarshal w (url.Get (formOf req) "payload") = Done event ->
        SlackInteractionEvent.Team event = Some team ->
        findTokenForWorkspace (Tokens (opts a)) (SlackInteractionTeam.ID team)
        = Some tok ->
        categoryOf (SlackInteractionEvent.Type_ event) = Some c' ->
        keyOf event c' = Some k ->
        trace (interactions w req a')
        = if decide (c = c' /\ key = k)
          then [CallHandler handler ctx]
          else trace (interactions w req a)).
Proof.
  intros Hauth a' ctx.
  destruct (opts_register a c key handler) as [Ho _].
  assert (Hauth' : authenticated a' req)
    by (apply (authenticated_same_options a a' req Ho Hauth)).
  split.
  - intros Hfind.
    rewrite (commands_authenticated req a' Hauth').
    rewrite (commands_authenticated req a Hauth).
    unfold a' at 1. rewrite Ho, Hfind. simpl trace.
    apply routed_register.
  - intros event team c' k Hjson Hteam Hfind Hc Hk.
    rewrite (interactions_authenticated w req a' Hauth').
    rewrite (interactions_authenticated w req a Hauth).
    unfold a' at 1. rewrite Ho, Hjson, Hteam, Hfind.
    rewrite !dispatchEvent_routed, Hc, Hk. simpl trace.
    apply routed_register.
Qed.

Lemma cases_authenticated_submit : authenticated Demo.app Cases.submit.
Proof. split; [split|]; vm_compute; reflexivity. Defined.

Lemma registration_then_dispatch_witness :
  handlersCalled
    (trace (interactions Cases.world Cases.submit
              (OnViewSubmission Demo.app "form" "onSubmitAgain")))
  = ["onSubmitAgain"]
  /\ handlersCalled
       (trace (interactions Cases.world Cases.submit
                 (OnViewClose Demo.app "form" "onCloseAgain")))
     = ["onSubmit"].
Proof.
  destruct (registration_then_dispatch Cases.world Demo.app ViewSubmission
              "form" "onSubmitAgain" Cases.submit
              {| Workspace := "T1"; Token := "xoxb-T1" |}
              cases_authenticated_submit) as (_ & Hnew).
  destruct (registration_then_dispatch Cases.world Demo.app ViewClosed
              "form" "onCloseAgain" Cases.submit
              {| Workspace := "T1"; Token := "xoxb-T1" |}
              cases_authenticated_submit) as (_ & Hother).
  split.
  - change (OnViewSubmission Demo.app "form" "onSubmitAgain")
      with (register ViewSubmission Demo.app "form" "onSubmitAgain").
    rewrite (Hnew (Cases.event "view_submission" (Some "T1") ""
                     (Some (Cases.view "form")))
                  {| SlackInteractionTeam.ID := "T1";
                     SlackInteractionTeam.Domain := "" |}
                  ViewSubmission "form")
      by (vm_compute; reflexivity).
    reflexivity.
  - change (OnViewClose Demo.app "form" "onCloseAgain")
      with (register ViewClosed Demo.app "form" "onCloseAgain").
    rewrite (Hother (Cases.event "view_submission" (Some "T1") ""
                       (Some (Cases.view "form")))
                    {| SlackInteractionTeam.ID := "T1";
                       SlackInteractionTeam.Domain := "" |}
                    ViewSubmission "form")
      by (vm_compute; reflexivity).
    vm_compute. reflexivity.
Defined.

Lemma signatureVerifies_same_options {Handler : Type} (a a' : SlackApp Handler)
  (req : Request) :
  opts a' = opts a -> signatureVerifies a' req = signatureVerifies a req.
Proof.
  intros Ho. unfold signatureVerifies, checkSlackSecret. rewrite Ho. reflexivity.
Qed.

Lemma commands_same_registry {Handler : Type} (a a' : SlackApp Handler)
  (req : Request) :
  opts a' = opts a -> cmds a' = cmds a ->
  trace (commands req a') = trace (commands req a)
  /\ value (commands req a') = value (commands req a).
Proof.
  intros Ho Hc.
  destruct (request_cases req a) as [[t Ht]|[Hsig|Hauth]].
  - rewrite (commands_malformed req a t Ht), (commands_malformed req a' t Ht).
    split; reflexivity.
  - rewrite (commands_unverified req a Hsig).
    rewrite (commands_unverified req a')
      by (rewrite (signatureVerifies_same_options a a' req Ho); exact Hsig).
    split; reflexivity.
  - rewrite (commands_authenticated req a Hauth).
    rewrite (commands_authenticated req a'
               (authenticated_same_options a a' req Ho Hauth)).
    rewrite Ho. unfold routed, registry. rewrite Hc.
    destruct (findTokenForWorkspace _ _); split; reflexivity.
Qed.

Lemma interactions_same_registries {Handler : Type} (w : World)
  (a a' : SlackApp Handler) (req : Request) :
  opts a' = opts a ->
  shortcutListeners a' = shortcutListeners a ->
  actionListeners a' = actionListeners a ->
  submitListeners a' = submitListeners a ->
  closeListeners a' = closeListeners a ->
  trace (interactions w req a') = trace (interactions w req a)
  /\ value (interactions w req a') = value (interactions w req a).
Proof.
  intros Ho H1 H2 H3 H4.
  destruct (request_cases req a) as [[t Ht]|[Hsig|Hauth]].
  - rewrite (interactions_malformed w req a t Ht),
      (interactions_malformed w req a' t Ht).
    split; reflexivity.
  - rewrite (interactions_unverified w req a Hsig).
    rewrite (interactions_unverified w req a')
      by (rewrite (signatureVerifies_same_options a a' req Ho); exact Hsig).
    split; reflexivity.
  - rewrite (interactions_authenticated w req a Hauth).
    rewrite (interactions_authenticated w req a'
               (authenticated_same_options a a' req Ho Hauth)).
    rewrite Ho.
    destruct (json_Unmarshal w _) as [event|e]; [|split; reflexivity].
    destruct (SlackInteractionEvent.Team event) as [team|];
      [|split; reflexivity].
    destruct (findTokenForWorkspace _ _) as [tok|]; [|split; reflexivity].
    rewrite !dispatchEvent_routed.
    destruct (categoryOf _) as [c|] eqn:Hc; [|split; reflexivity].
    destruct (keyOf event c) as [key|]; [|split; reflexivity].
    assert (Hr : registry a' c = registry a c).
    { destruct (categoryOf_event _ c Hc) as [[-> _]|[[-> _]|[[-> _]|[-> _]]]];
        simpl; assumption. }
    unfold routed. rewrite Hr. split; reflexivity.
Qed.

(** X6: [commands] reads nothing of the application but its options and
    its command registry, and [interactions] nothing but its options and
    the four event registries: two applications that agree on these serve
    every request alike. So registering or removing a command, or setting
    the install callback, changes no outcome of [interactions], and
    registering an event handler changes no outcome of [commands]. *)
Theorem dispatchers_read_their_own_registries {Handler : Type} (w : World)
  (a a' : SlackApp Handler) (req : Request) :
  opts a' = opts a ->
  (cmds a' = cmds a ->
   trace (commands req a') = trace (commands req a)
   /\ value (commands req a') = value (commands req a))
  /\ (shortcutListeners a' = shortcutListeners a ->
      actionListeners a' = actionListeners a ->
      submitListeners a' = submitListeners a ->
      closeListeners a' = closeListeners a ->
      trace (interactions w req a') = trace (interactions w req a)
      /\ value (interactions w req a') = value (interactions w req a)).
Proof.
  intros Ho. split.
  - apply commands_same_registry. exact Ho.
  - apply interactions_same_registries. exact Ho.
Qed.

Lemma dispatchers_read_their_own_registries_witness :
  trace (commands Demo.ping (OnAction Demo.app "/ping" "onAction"))
  = trace (commands Demo.ping Demo.app)
  /\ trace (interactions Demo.world Demo.click
              (RemoveCommand (OnCommand Demo.app "clicked_me" "onCommand") "/ping"))
     = trace (interactions Demo.world Demo.click Demo.app).
Proof.
  destruct (dispatchers_read_their_own_registries Demo.world Demo.app
              (OnAction Demo.app "/ping" "onAction") Demo.ping eq_refl)
    as (Hcommands & _).
  destruct (dispatchers_read_their_own_registries Demo.world Demo.app
              (RemoveCommand (OnCommand Demo.app "clicked_me" "onCommand") "/ping")
              Demo.click eq_refl)
    as (_ & Hinteractions).
  split.
  - exact (proj1 (Hcommands eq_refl)).
  - exact (proj1 (Hinteractions eq_refl eq_refl eq_refl eq_refl)).
Defined.

(** X7: after [RemoveCommand], an authenticated request of a known team for
    the removed command is answered 400 Unrecognized command and calls no
    handler; a request for any other command is served as before; removing
    a command that has no handler leaves the registry as it was. *)
Theorem RemoveCommand_then_dispatch {Handler : Type} (a : SlackApp Handler)
  (cmd : string) (req : Request) (tok : SlackAuthToken) :
  authenticated a req ->
  findTokenForWorkspace (Tokens (opts a)) (url.Get (formOf req) "team_id")
  = Some tok ->
  trace (commands req (RemoveCommand a cmd))
  = (if decide (cmd = url.Get (formOf req) "command")
     then Printf ("Unrecognized command: " ++ cmd ++ newline)
          :: reply StatusBadRequest "Unrecognized command"
     else trace (commands req a))
  /\ (cmds a !! cmd = None -> cmds (RemoveCommand a cmd) = cmds a).
Proof.
  intros Hauth Hfind. split.
  - rewrite (commands_authenticated req (RemoveCommand a cmd)
               (authenticated_same_options a _ req eq_refl Hauth)).
    rewrite (commands_authenticated req a Hauth).
    change (opts (RemoveCommand a cmd)) with (opts a). rewrite Hfind.
    simpl trace. unfold routed, registry.
    change (cmds (RemoveCommand a cmd)) with (delete cmd (cmds a)).
    destruct (decide (cmd = url.Get (formOf req) "command")) as [<-|Hne].
    + rewrite lookup_delete_eq. reflexivity.
    + rewrite lookup_delete_ne by exact Hne. reflexivity.
  - intros Hnone. apply delete_id. exact Hnone.
Qed.

Lemma RemoveCommand_then_dispatch_witness :
  bodyWritten (trace (commands Demo.ping (RemoveCommand Demo.app "/ping")))
  = ["Unrecognized command"].
Proof.
  destruct (RemoveCommand_then_dispatch Demo.app "/ping" Demo.ping
              {| Workspace := "T1"; Token := "xoxb-T1" |}
              demo_authenticated_ping) as (Hrun & _);
    [vm_compute; reflexivity|].
  rewrite Hrun. vm_compute. reflexivity.
Defined.

(** ** A fresh application *)

Lemma opts_InitializeSlackApp {Handler : Type} (o : SlackAppOptions) :
  opts (@InitializeSlackApp Handler o) = o.
Proof. destruct o. reflexivity. Qed.

Lemma routed_empty_registry {Handler : Type} (a : SlackApp Handler)
  (c : category) (key : string) (ctx : SlackContext) :
  registry a c = ∅ -> handlersCalled (routed a c key ctx) = [].
Proof. intros He. unfold routed. rewrite He, lookup_empty. reflexivity. Qed.

(** X8: the application [InitializeSlackApp] returns carries the options it
    was given and nothing else: whatever the request, [commands] and
    [interactions] call no handler on it, and [appInstall], which finds no
    install callback, registers no token. *)
Theorem fresh_application_is_empty {Handler : Type} (w : World)
  (o : SlackAppOptions) (req : Request) :
  let a := @InitializeSlackApp Handler o in
  opts a = o
  /\ handlersCalled (trace (commands req a)) = []
  /\ handlersCalled (trace (interactions w req a)) = []
  /\ final (appInstall w req a) = a.
Proof.
  intros a. split; [apply opts_InitializeSlackApp|]. split; [|split].
  - destruct (request_cases req a) as [[t Ht]|[Hsig|Hauth]].
    + rewrite (commands_malformed req a t Ht).
      destruct (beforeAuthentication_oneOutcome req t Ht) as [-> | ->];
        reflexivity.
    + rewrite (commands_unverified req a Hsig).
      destruct (beforeAuthentication req) as [t|] eqn:Ht; [|reflexivity].
      destruct (beforeAuthentication_oneOutcome req t Ht) as [-> | ->];
        reflexivity.
    + rewrite (commands_authenticated req a Hauth).
      destruct (findTokenForWorkspace _ _); [|reflexivity].
      apply routed_empty_registry. reflexivity.
  - destruct (request_cases req a) as [[t Ht]|[Hsig|Hauth]].
    + rewrite (interactions_malformed w req a t Ht).
      destruct (beforeAuthentication_oneOutcome req t Ht) as [-> | ->];
        reflexivity.
    + rewrite (interactions_unverified w req a Hsig).
      destruct (beforeAuthentication req) as [t|] eqn:Ht; [|reflexivity].
      destruct (beforeAuthentication_oneOutcome req t Ht) as [-> | ->];
        reflexivity.
    + rewrite (interactions_authenticated w req a Hauth).
      destruct (json_Unmarshal w _) as [event|e]; [|reflexivity].
      destruct (SlackInteractionEvent.Team event); [|reflexivity].
      destruct (findTokenForWorkspace _ _); [|reflexivity].
      rewrite dispatchEvent_routed.
      destruct (categoryOf _) as [c|]; [|reflexivity].
      destruct (keyOf event c); [|reflexivity].
      apply routed_empty_registry. destruct c; reflexivity.
  - rewrite appInstall_outcome. cbv zeta.
    destruct (platformAnswer w a req) as [respBody|e]; [|reflexivity].
    destruct (json_Decode w respBody) as [r|e]; [|reflexivity].
    destruct (SlackOauth2Response.Ok r); reflexivity.
Qed.

(** ** Replacing the tokens *)

Lemma authenticated_same_secret {Handler : Type} (a a' : SlackApp Handler)
  (req : Request) :
  SigningSecret (opts a') = SigningSecret (opts a) ->
  authenticated a req -> authenticated a' req.
Proof.
  intros Hs [Hwf Hsig]. split; [exact Hwf|].
  unfold signatureVerifies, checkSlackSecret in *. rewrite Hs. exact Hsig.
Qed.



(** ** The order of a response *)

Lemma set_headers_run {Handler : Type} (l : list (string * string))
  (a : SlackApp Handler) :
  foldr (fun kv rest => bind (emit (HeaderSet (fst kv) (snd kv))) (fun _ => rest))
        (ret tt) l a
  = finished a (map (fun kv => HeaderSet (fst kv) (snd kv)) l).
Proof.
  induction l as [|kv l IH]; [reflexivity|].
  simpl. unfold bind at 1. simpl. rewrite IH. reflexivity.
Qed.

Lemma flat_map_HeaderSet {Handler B : Type} (f : effect Handler -> list B)
  (l : list (string * string)) :
  (forall k v, f (HeaderSet k v) = []) ->
  flat_map f (map (fun kv => HeaderSet (fst kv) (snd kv)) l) = [].
Proof.
  intros Hf. induction l as [|kv l IH]; simpl; [reflexivity|].
  rewrite Hf, IH. reflexivity.
Qed.

(** X10: [Response] sets every header of the map it is given, and no other,
    before it writes the status line, then writes the status once and the
    body once; it calls no handler and leaves the application as it was. *)
Theorem Response_sets_headers_first {Handler : Type} (ctx : SlackContext)
  (code : Z) (message : string) (headers : gmap string string)
  (a : SlackApp Handler) :
  Response ctx code message headers a
  = finished a
      (map (fun kv => HeaderSet (fst kv) (snd kv)) (map_to_list headers)
       ++ [WriteHeader code; Write message])%list
  /\ (forall k v,
        headers !! k = Some v
        <-> In (HeaderSet k v) (trace (Response ctx code message headers a)))
  /\ statusWritten (trace (Response ctx code message headers a)) = [code]
  /\ bodyWritten (trace (Response ctx code message headers a)) = [message]
  /\ handlersCalled (trace (Response ctx code message headers a)) = [].
Proof.
  assert (Hrun : Response ctx code message headers a
                 = finished a
                     (map (fun kv => HeaderSet (fst kv) (snd kv))
                        (map_to_list headers)
                      ++ [WriteHeader code; Write message])%list).
  { unfold Response. unfold bind at 1. rewrite set_headers_run. reflexivity. }
  split; [exact Hrun|]. rewrite Hrun. simpl trace.
  split; [|unfold statusWritten, bodyWritten, handlersCalled;
           rewrite !flat_map_app, !flat_map_HeaderSet by reflexivity;
           repeat split].
  intros k v. rewrite in_app_iff, in_map_iff. split.
  - intros Hk. left. exists (k, v). split; [reflexivity|].
    apply list_elem_of_In. apply elem_of_map_to_list. exact Hk.
  - intros [((k' & v') & [= -> ->] & Hin)|[H|[H|[]]]]; try discriminate.
    apply elem_of_map_to_list. apply list_elem_of_In. exact Hin.
Qed.

(** ** What an install exchange keeps *)

Lemma find_AddToken_keeps {Handler : Type} (a : SlackApp Handler)
  (added : SlackAuthToken) (workspace : string) (token : SlackAuthToken) :
  findTokenForWorkspace (Tokens (opts a)) workspace = Some token ->
  findTokenForWorkspace (Tokens (opts (AddToken a added))) workspace
  = Some token.
Proof. intros H. rewrite find_AddToken, H. reflexivity. Qed.

(** X11: whatever the request and the answer of the platform, [appInstall]
    returns, makes exactly one POST, to the access URL, of the form it
    built, calls no command or event handler and writes at most one
    status, 200 or 500. It leaves the application as it was or with one
    token appended: the registries and the callback are untouched, no token
    is removed, and every workspace that had a token resolves to the same
    token afterwards. *)
Theorem appInstall_keeps_what_is_registered {Handler : Type} (w : World)
  (a : SlackApp Handler) (req : Request) :
  let r := appInstall w req a in
  value r = Some tt
  /\ postsMade (trace r)
     = [(accessURL, formContentType, url.Encode (installForm a req))]
  /\ handlersCalled (trace r) = []
  /\ (statusWritten (trace r) = [StatusOK]
      \/ statusWritten (trace r) = [StatusInternalServerError]
      \/ statusWritten (trace r) = [])
  /\ (final r = a \/ exists token, final r = AddToken a token)
  /\ (forall workspace token,
        findTokenForWorkspace (Tokens (opts a)) workspace = Some token ->
        findTokenForWorkspace (Tokens (opts (final r))) workspace = Some token).
Proof.
  intros r. subst r. rewrite appInstall_outcome. cbv zeta.
  destruct (platformAnswer w a req) as [respBody|e];
    [|repeat split; auto].
  destruct (json_Decode w respBody) as [res|e]; [|repeat split; auto].
  destruct (SlackOauth2Response.Ok res); [|repeat split; auto].
  destruct (distCB a) as [cb|]; [|repeat split; auto].
  destruct (cb res req).
  - repeat split; auto.
    + right. exists (installedToken res). reflexivity.
    + intros workspace token. apply find_AddToken_keeps.
  - repeat split; auto.
    + right. exists (installedToken res). reflexivity.
    + intros workspace token. apply find_AddToken_keeps.
Qed.

(** ** An install, then a command *)

(** X12: after a granted install with a callback set, an authenticated
    command of the installed team is dispatched through the command
    registry. The token it is given is the one just installed when the team
    had none, so a request that was answered 400 App not installed for
    workspace before the install is dispatched after it; when the team had
    a token already, it is still given that earlier token and the new one
    is never used. *)
Theorem install_then_command {Handler : Type} (w : World)
  (a : SlackApp Handler) (req : Request)
  (cb : SlackOauth2Response.t -> Request -> bool)
  (respBody : string) (res : SlackOauth2Response.t) (command : Request) :
  distCB a = Some cb ->
  platformAnswer w a req = Done respBody ->
  json_Decode w respBody = Done res ->
  SlackOauth2Response.Ok res = true ->
  authenticated a command ->
  url.Get (formOf command) "team_id"
  = SlackOauth2Team.ID (SlackOauth2Response.Team res) ->
  let a' := final (appInstall w req a) in
  let earlier :=
    findTokenForWorkspace (Tokens (opts a))
      (SlackOauth2Team.ID (SlackOauth2Response.Team res)) in
  trace (commands command a')
  = routed a SlashCommand (url.Get (formOf command) "command")
      (handlerContext command (default (installedToken res) earlier))
  /\ (earlier = None ->
      bodyWritten (trace (commands command a))
      = ["App not installed for workspace"]).
Proof.
  intros Hcb Hpost Hjson Hok Hauth Hteam a' earlier.
  assert (Ha' : a' = AddToken a (installedToken res)).
  { unfold a'. rewrite appInstall_outcome. cbv zeta.
    rewrite Hpost, Hjson, Hok, Hcb. reflexivity. }
  split.
  - rewrite Ha'.
    rewrite (commands_authenticated command (AddToken a (installedToken res))
               (authenticated_same_secret a _ command eq_refl Hauth)).
    rewrite Hteam, find_AddToken. fold earlier.
    destruct earlier as [old|]; [reflexivity|].
    unfold installedToken at 1. simpl Workspace.
    rewrite String.eqb_refl. reflexivity.
  - intros Hnone. rewrite (commands_authenticated command a Hauth).
    rewrite Hteam. fold earlier. rewrite Hnone. reflexivity.
Qed.

Lemma cases_authenticated_pingFromT9 :
  authenticated Demo.appWithCallback Cases.pingFromT9.
Proof. split; [split|]; vm_compute; reflexivity. Defined.

Lemma demo_good_answer :
  platformAnswer Demo.world Demo.appWithCallback (Demo.installRequest "good")
  = Done Demo.grantedJSON.
Proof. vm_compute. reflexivity. Defined.

Lemma demo_good_decoded :
  json_Decode Demo.world Demo.grantedJSON = Done (Demo.oauth true "tok" "T9").
Proof. vm_compute. reflexivity. Defined.

Lemma cases_pingFromT9_team :
  url.Get (formOf Cases.pingFromT9) "team_id" = "T9".
Proof. vm_compute. reflexivity. Defined.

Lemma install_then_command_witness :
  trace (commands Cases.pingFromT9
           (final (appInstall Demo.world (Demo.installRequest "good")
                     Demo.appWithCallback)))
  = [CallHandler "onPing"
       {| ctxBody := "team_id=T9&command=%2Fping";
          ctxToken := "tok";
          ctxReq := Some Cases.pingFromT9 |}].
Proof.
  rewrite (proj1 (install_then_command Demo.world Demo.appWithCallback
                    (Demo.installRequest "good") (fun _ _ => false)
                    Demo.grantedJSON (Demo.oauth true "tok" "T9")
                    Cases.pingFromT9 eq_refl demo_good_answer
                    demo_good_decoded eq_refl cases_authenticated_pingFromT9
                    cases_pingFromT9_team)).
  vm_compute. reflexivity.
Defined.

(** ** The form of the install exchange *)

Lemma unescape_plain (c : ascii) (t : string) :
  url.shouldEscape c = false ->
  url.QueryUnescape (String c t)
  = match url.QueryUnescape t with
    | Done u => Done (String c u)
    | Fail e => Fail e
    end.
Proof.
  destruct c as [[] [] [] [] [] [] [] []]; intros H;
    first [vm_compute in H; discriminate H | reflexivity].
Qed.

Lemma escape_digits (c : ascii) :
  let b := byte_of_ascii c in
  let hi := url.upper_digit (Z.shiftr b 4) in
  let lo := url.upper_digit (Z.land b 15) in
  url.ishex hi && url.ishex lo = true
  /\ ascii_of_byte (Z.lor (Z.shiftl (url.unhex hi) 4) (url.unhex lo)) = c.
Proof.
  destruct c as [[] [] [] [] [] [] [] []]; vm_compute; split; reflexivity.
Qed.

Lemma escaped_char_safe (c : ascii) :
  strings.Contains_byte (url.QueryEscape (String c "")) "&" = false
  /\ strings.Contains_byte (url.QueryEscape (String c "")) ";" = false.
Proof.
  destruct c as [[] [] [] [] [] [] [] []]; vm_compute; split; reflexivity.
Qed.

Lemma QueryEscape_cons (c : ascii) (v : string) :
  url.QueryEscape (String c v) = url.QueryEscape (String c "") ++ url.QueryEscape v.
Proof.
  simpl. destruct (Ascii.eqb c " "); [reflexivity|].
  destruct (url.shouldEscape c); reflexivity.
Qed.

(** Unescaping undoes escaping, for every byte string. *)
Lemma QueryUnescape_QueryEscape (v : string) :
  url.QueryUnescape (url.QueryEscape v) = Done v.
Proof.
  induction v as [|c v IH]; [reflexivity|].
  change (url.QueryEscape (String c v))
    with (if Ascii.eqb c " " then String "+" (url.QueryEscape v)
          else if url.shouldEscape c then
            String "%"
              (String (url.upper_digit (Z.shiftr (byte_of_ascii c) 4))
                 (String (url.upper_digit (Z.land (byte_of_ascii c) 15))
                    (url.QueryEscape v)))
          else String c (url.QueryEscape v)).
  destruct (Ascii.eqb_spec c " ") as [->|Hsp].
  - change (url.QueryUnescape (String "+" (url.QueryEscape v)))
      with (match url.QueryUnescape (url.QueryEscape v) with
            | Done t => Done (String " " t)
            | Fail e => Fail e
            end).
    rewrite IH. reflexivity.
  - destruct (url.shouldEscape c) eqn:Hesc.
    + destruct (escape_digits c) as [Hhex Hbyte]. cbv zeta in Hhex, Hbyte.
      set (hi := url.upper_digit (Z.shiftr (byte_of_ascii c) 4)) in *.
      set (lo := url.upper_digit (Z.land (byte_of_ascii c) 15)) in *.
      change (url.QueryUnescape (String "%" (String hi (String lo (url.QueryEscape v)))))
        with (if url.ishex hi && url.ishex lo then
                match url.QueryUnescape (url.QueryEscape v) with
                | Done t =>
                    Done (String (ascii_of_byte
                                    (Z.lor (Z.shiftl (url.unhex hi) 4) (url.unhex lo))) t)
                | Fail e => Fail e
                end
              else Fail (EscapeError
                           (String.substring 0 3
                              (String "%" (String hi (String lo (url.QueryEscape v))))))).
      rewrite Hhex, IH, Hbyte. reflexivity.
    + rewrite (unescape_plain c _ Hesc), IH. reflexivity.
Qed.

Lemma Contains_byte_app (s t : string) (c : ascii) :
  strings.Contains_byte (s ++ t) c
  = strings.Contains_byte s c || strings.Contains_byte t c.
Proof.
  induction s as [|d s IH]; [reflexivity|].
  simpl. destruct (Ascii.eqb d c); [reflexivity|exact IH].
Qed.

(** An escaped string holds no [&] and no [;]. *)
Lemma QueryEscape_safe (v : string) :
  strings.Contains_byte (url.QueryEscape v) "&" = false
  /\ strings.Contains_byte (url.QueryEscape v) ";" = false.
Proof.
  induction v as [|c v [IHa IHs]]; [split; reflexivity|].
  rewrite QueryEscape_cons, !Contains_byte_app, IHa, IHs.
  destruct (escaped_char_safe c) as [-> ->]. split; reflexivity.
Qed.

Lemma segments_cut (s rest : string) :
  strings.Contains_byte s "&" = false ->
  url.segments (s ++ String "&" rest) = s :: url.segments rest.
Proof.
  induction s as [|c s IH]; intros Hs; [reflexivity|].
  simpl in Hs. simpl.
  destruct (Ascii.eqb c "&"); [discriminate|].
  rewrite (IH Hs). reflexivity.
Qed.

Lemma segments_last (c : ascii) (s : string) :
  strings.Contains_byte (String c s) "&" = false ->
  url.segments (String c s) = [String c s].
Proof.
  revert c. induction s as [|d s IH]; intros c Hs.
  - simpl in *. destruct (Ascii.eqb c "&"); [discriminate|reflexivity].
  - simpl in Hs. change (url.segments (String c (String d s)))
      with (if Ascii.eqb c "&" then "" :: url.segments (String d s)
            else match url.segments (String d s) with
                 | [] => [String c ""]
                 | seg :: segs => String c seg :: segs
                 end).
    destruct (Ascii.eqb c "&"); [discriminate|].
    rewrite (IH d) by exact Hs. reflexivity.
Qed.

Lemma Cut_at_equals (key value : string) :
  strings.Contains_byte key "=" = false ->
  strings.Cut (key ++ String "=" value) "=" = (key, value, true).
Proof.
  induction key as [|c key IH]; intros Hk; [reflexivity|].
  simpl in Hk. simpl.
  destruct (Ascii.eqb c "="); [discriminate|].
  rewrite (IH Hk). reflexivity.
Qed.

(** One field [key=escaped value], read by [parseQuery]. *)
Lemma parse_field (m : url.Values) (key value : string) :
  key <> "" ->
  strings.Contains_byte key "=" = false ->
  strings.Contains_byte key ";" = false ->
  url.QueryUnescape key = Done key ->
  url.parse_segment (m, None) (key ++ String "=" (url.QueryEscape value))
  = (<[key := (default [] (m !! key) ++ [value])%list]> m, None).
Proof.
  intros Hne Heq Hsemi Hkey. unfold url.parse_segment.
  rewrite Contains_byte_app, Hsemi. simpl strings.Contains_byte.
  rewrite (proj2 (QueryEscape_safe value)). simpl orb.
  destruct key as [|c key]; [contradiction|].
  change (String.eqb (String c key ++ String "=" (url.QueryEscape value)) "")
    with false. cbv iota.
  rewrite (Cut_at_equals (String c key) _ Heq), Hkey.
  rewrite QueryUnescape_QueryEscape. reflexivity.
Qed.

Lemma Encode_three (x y z : string) :
  url.Encode (url.Set_ (url.Set_ (url.Set_ ∅ "code" x) "client_id" y)
                "client_secret" z)
  = "client_id=" ++ url.QueryEscape y ++ "&client_secret=" ++ url.QueryEscape z
    ++ "&code=" ++ url.QueryEscape x.
Proof.
  set (form := url.Set_ _ _ _).
  assert (Hkeys : url.sorted_keys form = ["client_id"; "client_secret"; "code"])
    by (vm_compute; reflexivity).
  assert (H1 : form !! "client_id" = Some [y]) by (vm_compute; reflexivity).
  assert (H2 : form !! "client_secret" = Some [z]) by (vm_compute; reflexivity).
  assert (H3 : form !! "code" = Some [x]) by (vm_compute; reflexivity).
  unfold url.Encode. rewrite Hkeys. simpl flat_map.
  rewrite H1, H2, H3. simpl.
  rewrite !append_assoc_string. reflexivity.
Qed.

Lemma field_safe (key value : string) :
  strings.Contains_byte key "&" = false ->
  strings.Contains_byte (key ++ String "=" (url.QueryEscape value)) "&" = false.
Proof.
  intros Hk. rewrite Contains_byte_app, Hk. simpl.
  exact (proj1 (QueryEscape_safe value)).
Qed.

Lemma ParseQuery_three (x y z : string) :
  url.ParseQuery
    ("client_id=" ++ url.QueryEscape y ++ "&client_secret=" ++ url.QueryEscape z
     ++ "&code=" ++ url.QueryEscape x)
  = (url.Set_ (url.Set_ (url.Set_ ∅ "code" x) "client_id" y) "client_secret" z,
     None).
Proof.
  unfold url.ParseQuery.
  change ("client_id=" ++ url.QueryEscape y ++ "&client_secret="
          ++ url.QueryEscape z ++ "&code=" ++ url.QueryEscape x)
    with (("client_id" ++ String "=" (url.QueryEscape y))
          ++ String "&"
               (("client_secret" ++ String "=" (url.QueryEscape z))
                ++ String "&" ("code" ++ String "=" (url.QueryEscape x)))).
  rewrite !segments_cut by (apply field_safe; reflexivity).
  change ("code" ++ String "=" (url.QueryEscape x))
    with (String "c" ("ode" ++ String "=" (url.QueryEscape x))) at 1.
  rewrite segments_last
    by (apply (field_safe "code" x); reflexivity).
  change (String "c" ("ode" ++ String "=" (url.QueryEscape x)))
    with ("code" ++ String "=" (url.QueryEscape x)).
  cbn [fold_left].
  rewrite !parse_field by (reflexivity || discriminate).
  reflexivity.
Qed.

(** X13: the body [appInstall] posts is the three fields [client_id],
    [client_secret] and [code], in this order, each query-escaped and
    joined by [&]. Parsing that body as a form yields, without error,
    exactly the three values [appInstall] took from the application and the
    request, whatever bytes they hold: a code or a secret that contains
    [&], [=], [;], [%] or [+] adds no field and changes none. *)
Theorem install_form_round_trip {Handler : Type} (a : SlackApp Handler)
  (req : Request) :
  let code := url.Get (Query req) "code" in
  let body := url.Encode (installForm a req) in
  let parsed := fst (url.ParseQuery body) in
  body = "client_id=" ++ url.QueryEscape (ClientID (opts a))
         ++ "&client_secret=" ++ url.QueryEscape (ClientSecret (opts a))
         ++ "&code=" ++ url.QueryEscape code
  /\ url.ParseQuery body = (installForm a req, None)
  /\ url.Get parsed "client_id" = ClientID (opts a)
  /\ url.Get parsed "client_secret" = ClientSecret (opts a)
  /\ url.Get parsed "code" = code
  /\ (forall key,
        key <> "client_id" -> key <> "client_secret" -> key <> "code" ->
        parsed !! key = None).
Proof.
  intros code body parsed.
  assert (Hbody : body = "client_id=" ++ url.QueryEscape (ClientID (opts a))
                         ++ "&client_secret="
                         ++ url.QueryEscape (ClientSecret (opts a))
                         ++ "&code=" ++ url.QueryEscape code)
    by apply Encode_three.
  assert (Hparse : url.ParseQuery body = (installForm a req, None))
    by (rewrite Hbody; apply ParseQuery_three).
  split; [exact Hbody|]. split; [exact Hparse|].
  unfold parsed. rewrite Hparse. simpl fst.
  unfold installForm, url.Set_, url.Values.
  split; [reflexivity|]. split; [reflexivity|]. split; [reflexivity|].
  intros key H1 H2 H3.
  rewrite !lookup_insert_ne by congruence. apply lookup_empty.
Qed.

(** A code that tries to smuggle a second [client_id] stays one value. *)
Example install_form_keeps_code_whole :
  let req := {| HeaderGet := fun _ => "";
                Body := ("", None);
                RawQuery := "code=x%26client_id%3Devil" |} in
  url.Get (Query req) "code" = "x&client_id=evil"
  /\ url.Encode (installForm Demo.app req)
     = "client_id=cid&client_secret=cs&code=x%26client_id%3Devil".
Proof. vm_compute. split; reflexivity. Qed.

(** ** Serving *)

Lemma append_same_head (s t u : string) : s ++ t = s ++ u -> t = u.
Proof.
  induction s as [|c s IH]; [intros H; exact H|].
  intros H. injection H as H. exact (IH H).
Qed.

Lemma append_not_empty (s : string) (c : ascii) (t : string) :
  s ++ String c t <> "".
Proof. destruct s; discriminate. Qed.

Lemma HandleFunc_fresh (served : http.ServeMux) (pattern : string) (r : route) :
  pattern <> "" ->
  http.registered served pattern = false ->
  http.HandleFunc served pattern r = Some ((pattern, r) :: served).
Proof.
  intros Hne Hfresh. unfold http.HandleFunc.
  rewrite (proj2 (String.eqb_neq _ _) Hne), Hfresh. reflexivity.
Qed.

Lemma root_not_under (P t : string) :
  String.eqb "/" ("/" ++ P ++ String "/" t) = false.
Proof.
  apply String.eqb_neq. intros H. injection H as H.
  symmetry in H. exact (append_not_empty P "/" t H).
Qed.

Lemma under_prefix_distinct (P t u : string) :
  t <> u -> String.eqb ("/" ++ P ++ t) ("/" ++ P ++ u) = false.
Proof.
  intros Hne. apply String.eqb_neq. intros H. apply Hne.
  apply (append_same_head ("/" ++ P)).
  rewrite !append_assoc_string. exact H.
Qed.

(** X14: [ServeApp] panics on an empty route prefix before it registers
    anything. With a prefix P that is not empty it registers, on a mux that
    holds nothing yet, exactly the four patterns [/], [/P/install],
    [/P/commands] and [/P/] for the index, the install exchange, the
    commands and the interactions, which are pairwise distinct whatever P
    is, and listens on the port given. As the mux is the default one of the
    process, a second [ServeApp], of this or of any other application,
    panics on the pattern [/]. *)
Theorem ServeApp_registers_once {Handler : Type} (a : SlackApp Handler)
  (port : N) (cb : bool) :
  (Prefix (opts a) = "" -> forall mux, ServeApp a port cb mux = None)
  /\ (Prefix (opts a) <> "" ->
      ServeApp a port cb []
      = Some {| mux := [ ("/" ++ Prefix (opts a) ++ "/", InteractionsRoute);
                         ("/" ++ Prefix (opts a) ++ "/commands", CommandsRoute);
                         ("/" ++ Prefix (opts a) ++ "/install", InstallRoute);
                         ("/", IndexRoute) ];
                Addr := ":" ++ NilZero.string_of_uint
                                 (N.to_uint (port mod 65536));
                callbackStarted := cb |})
  /\ (forall served (a' : SlackApp Handler) port' cb',
        ServeApp a port cb [] = Some served ->
        ServeApp a' port' cb' (mux served) = None).
Proof.
  assert (Hserve : Prefix (opts a) <> "" ->
    ServeApp a port cb []
    = Some {| mux := [ ("/" ++ Prefix (opts a) ++ "/", InteractionsRoute);
                       ("/" ++ Prefix (opts a) ++ "/commands", CommandsRoute);
                       ("/" ++ Prefix (opts a) ++ "/install", InstallRoute);
                       ("/", IndexRoute) ];
              Addr := ":" ++ NilZero.string_of_uint
                               (N.to_uint (port mod 65536));
              callbackStarted := cb |}).
  { intros Hp. unfold ServeApp.
    set (P := Prefix (opts a)) in *.
    assert (Hlen : (String.length P =? 0)%nat = false)
      by (destruct P; [contradiction|reflexivity]).
    rewrite Hlen.
    rewrite (HandleFunc_fresh [] "/" IndexRoute) by (discriminate || reflexivity).
    cbv beta iota.
    rewrite (HandleFunc_fresh [("/", IndexRoute)] ("/" ++ P ++ "/install")
               InstallRoute);
      [|discriminate|].
    2:{ unfold http.registered, existsb, fst.
        rewrite (root_not_under P "install"). reflexivity. }
    cbv beta iota.
    rewrite (HandleFunc_fresh
               [("/" ++ P ++ "/install", InstallRoute); ("/", IndexRoute)]
               ("/" ++ P ++ "/commands") CommandsRoute);
      [|discriminate|].
    2:{ unfold http.registered, existsb, fst.
        rewrite (root_not_under P "commands").
        rewrite (under_prefix_distinct P "/install" "/commands")
          by discriminate.
        reflexivity. }
    cbv beta iota.
    rewrite (HandleFunc_fresh
               [("/" ++ P ++ "/commands", CommandsRoute);
                ("/" ++ P ++ "/install", InstallRoute); ("/", IndexRoute)]
               ("/" ++ P ++ "/") InteractionsRoute);
      [reflexivity|discriminate|].
    unfold http.registered, existsb, fst.
    rewrite (root_not_under P "").
    rewrite (under_prefix_distinct P "/install" "/") by discriminate.
    rewrite (under_prefix_distinct P "/commands" "/") by discriminate.
    reflexivity. }
  split; [|split; [exact Hserve|]].
  - intros Hp mux0. unfold ServeApp. rewrite Hp. reflexivity.
  - intros served a' port' cb' Hfirst.
    destruct (String.eqb_spec (Prefix (opts a)) "") as [Hp|Hp].
    + unfold ServeApp in Hfirst. rewrite Hp in Hfirst. discriminate.
    + rewrite (Hserve Hp) in Hfirst. injection Hfirst as <-.
      unfold ServeApp.
      destruct (String.length (Prefix (opts a')) =? 0)%nat; [reflexivity|].
      unfold http.HandleFunc, http.registered at 1. simpl existsb.
      rewrite !orb_true_r. reflexivity.
Qed.

Lemma ServeApp_registers_once_witness :
  ServeApp Demo.app 8080 true []
  = Some {| mux := [ ("/dev/", InteractionsRoute);
                     ("/dev/commands", CommandsRoute);
                     ("/dev/install", InstallRoute);
                     ("/", IndexRoute) ];
            Addr := ":8080";
            callbackStarted := true |}.
Proof.
  exact (proj1 (proj2 (ServeApp_registers_once Demo.app 8080 true))
           ltac:(discriminate)).
Defined.
